(** * Document construction and chunking engine of the RAG ingestion scripts

    A shallow embedding of [scripts/rag/run.py], [scripts/rag/docs.py],
    [scripts/rag/source.py], [scripts/rag/examples.py], [scripts/rag/utils.py]
    and [scripts/rag/config.py], with the properties of the line-aware
    splitter, the chunk profile selector, the symbol extractor and the
    document builders.

    Conventions.  Python [str] values are Rocq strings (characters are the
    code points below 256); Python [int] values are [Z]; a [dict] with string
    keys is a [gmap string _]; a [set] of strings is a [gset string]; code
    that can raise returns a [res], whose [Raise] carries the exception. *)

From Stdlib Require Import ZArith Lia List Ascii String Bool.
From stdpp Require Import base option list gmap strings sorting.

#[local] Set Warnings "-register-all".

(** ** Python built-ins used by the scripts *)

Module Py.

(** Exceptions (all of them subclasses of [Exception]). *)
Inductive exn : Type :=
| AttributeError (msg : string)
| TypeError (msg : string)
| ValueError (msg : string)
| JSONDecodeError (msg : string)
| OtherError (msg : string).

Inductive res (A : Type) : Type :=
| Ok (a : A)
| Raise (e : exn).
Arguments Ok {A} a.
Arguments Raise {A} e.

Definition bind {A B : Type} (m : res A) (k : A -> res B) : res B :=
  match m with
  | Ok a => k a
  | Raise e => Raise e
  end.

(** [try: body except Exception as e: handler e] *)
Definition try_except {A : Type} (body : res A) (handler : exn -> res A) : res A :=
  match body with
  | Ok a => Ok a
  | Raise e => handler e
  end.

(** Values that occur in metadata, front matter and JSON. *)
Inductive value : Type :=
| VNone
| VBool (b : bool)
| VInt (z : Z)
| VStr (s : string)
| VList (l : list value)
| VDict (kvs : list (string * value)).

(** [bool(v)] *)
Definition truthy (v : value) : bool :=
  match v with
  | VNone => false
  | VBool b => b
  | VInt z => negb (z =? 0)%Z
  | VStr s => negb (String.eqb s "")
  | VList l => match l with [] => false | _ => true end
  | VDict kvs => match kvs with [] => false | _ => true end
  end.

(** [a or b] *)
Definition or_else (a b : value) : value := if truthy a then a else b.

(** Lists and dicts are unhashable: adding one to a [set] raises. *)
Definition hashable (v : value) : bool :=
  match v with
  | VList _ | VDict _ => false
  | _ => true
  end.

Definition nl : string := String "010"%char EmptyString.

(** [len(s)] *)
Definition len (s : string) : Z := Z.of_nat (String.length s).

(** [sep.join(parts)] for a list of [str]. *)
Definition join (sep : string) (parts : list string) : string :=
  String.concat sep parts.

(** Line boundaries of [str.splitlines]: LF, VT, FF, CR, FS, GS, RS, NEL
    (and CR LF as one boundary). *)
Definition is_linebreak (a : ascii) : bool :=
  let n := N_of_ascii a in
  ((n =? 10) || (n =? 11) || (n =? 12) || (n =? 13) ||
   (n =? 28) || (n =? 29) || (n =? 30) || (n =? 133))%N.

Fixpoint splitlines_aux (s : string) (pending : string) : list string :=
  match s with
  | EmptyString =>
      match pending with
      | EmptyString => []
      | _ => [pending]
      end
  | String c rest =>
      if is_linebreak c then
        match rest with
        | String c2 rest' =>
            if (Ascii.eqb c "013" && Ascii.eqb c2 "010")%bool
            then pending :: splitlines_aux rest' EmptyString
            else pending :: splitlines_aux rest EmptyString
        | EmptyString => pending :: splitlines_aux rest EmptyString
        end
      else splitlines_aux rest (pending +:+ String c EmptyString)
  end.

(** [s.splitlines()] *)
Definition splitlines (s : string) : list string := splitlines_aux s EmptyString.

(** [str.isspace] on one character. *)
Definition is_space (a : ascii) : bool :=
  let n := N_of_ascii a in
  (((9 <=? n) && (n <=? 13)) || ((28 <=? n) && (n <=? 32)) ||
   (n =? 133) || (n =? 160))%N.

(** [s.rstrip()] *)
Fixpoint rstrip (s : string) : string :=
  match s with
  | EmptyString => EmptyString
  | String c rest =>
      match rstrip rest with
      | EmptyString => if is_space c then EmptyString else String c EmptyString
      | r => String c r
      end
  end.

(** [s.lstrip()] *)
Fixpoint lstrip (s : string) : string :=
  match s with
  | EmptyString => EmptyString
  | String c rest => if is_space c then lstrip rest else s
  end.

(** [s.strip()] *)
Definition strip (s : string) : string := rstrip (lstrip s).

(** [s.startswith(p)] *)
Definition startswith (s p : string) : bool := String.prefix p s.

(** [p in s] for two [str]. *)
Fixpoint contains (p s : string) : bool :=
  match s with
  | EmptyString => String.prefix p EmptyString
  | String _ rest => String.prefix p s || contains p rest
  end.

(** [s.endswith(p)] *)
Definition endswith (s p : string) : bool :=
  String.prefix (String.rev p) (String.rev s).

(** [str.lower] on one character (ASCII and Latin-1 capital letters). *)
Definition lower_char (a : ascii) : ascii :=
  let n := N_of_ascii a in
  if (((65 <=? n) && (n <=? 90)) ||
      ((192 <=? n) && (n <=? 222) && negb (n =? 215)))%N
  then ascii_of_N (n + 32) else a.

(** [str.upper] on one ASCII character. *)
Definition upper_char (a : ascii) : ascii :=
  let n := N_of_ascii a in
  if ((97 <=? n) && (n <=? 122))%N then ascii_of_N (n - 32) else a.

Fixpoint map_chars (f : ascii -> ascii) (s : string) : string :=
  match s with
  | EmptyString => EmptyString
  | String c rest => String (f c) (map_chars f rest)
  end.

(** [s.lower()] *)
Definition lower (s : string) : string := map_chars lower_char s.

(** [s.capitalize()] (on ASCII words, as the stylesheet patterns capture). *)
Definition capitalize (s : string) : string :=
  match s with
  | EmptyString => EmptyString
  | String c rest => String (upper_char c) (lower rest)
  end.

(** [s.split(sep)] for a one-character separator. *)
Fixpoint split_on (sep : ascii) (s : string) (pending : string) : list string :=
  match s with
  | EmptyString => [pending]
  | String c rest =>
      if Ascii.eqb c sep then pending :: split_on sep rest EmptyString
      else split_on sep rest (pending +:+ String c EmptyString)
  end.

End Py.

Import Py.

(** ** [langchain.schema.Document] *)

Record Document : Type := mkDocument {
  page_content : string;
  metadata : gmap string value
}.

(** ** Chunking configuration ([config.py]) *)

Module Config.
Definition DEFAULT_CHUNK_CHARS : Z := 4000.
Definition DEFAULT_CHUNK_OVERLAP : Z := 400.
Definition TS_CHUNK_CHARS : Z := 6000.
Definition TS_CHUNK_OVERLAP : Z := 600.
Definition DOCS_CHUNK_CHARS : Z := 8000.
Definition DOCS_CHUNK_OVERLAP : Z := 800.
Definition EXAMPLE_CHUNK_CHARS : Z := 10000.
Definition EXAMPLE_CHUNK_OVERLAP : Z := 1000.
Definition PROPS_FILE_PATTERNS : list string := ["Props.ts"; "Props.tsx"]%string.
End Config.

(** ** The line-aware splitter ([run.py], [LineAwareSplitter]) *)

Module LineAwareSplitter.

(** The local variables of one pass of the [for d in docs] body. *)
Record loop_state : Type := mkState {
  out : list Document;
  current : list string;
  current_len : Z;
  start_line_idx : Z;
  i : nat
}.

(** [sum(len(l) + 1 for l in current)] *)
Definition lines_len (ls : list string) : Z :=
  fold_right (fun l acc => (len l + 1 + acc)%Z) 0%Z ls.

(** The inner [while j >= 0 and remaining > 0] loop, walking [current]
    from its last line down ([rev_current] is [current] reversed);
    [overlap_lines.insert(0, l)] prepends. *)
Fixpoint overlap_scan (rev_current : list string) (remaining : Z)
         (overlap_lines : list string) : list string :=
  match rev_current with
  | [] => overlap_lines
  | l :: below =>
      if (0 <? remaining)%Z
      then overlap_scan below (remaining - (len l + 1))%Z (l :: overlap_lines)
      else overlap_lines
  end.

(** The chunk built from the buffer, at both places that emit one. *)
Definition make_chunk (d : Document) (start_line_idx : Z) (current : list string)
  : Document :=
  let chunk_text := rstrip (join nl current) in
  let end_line_idx := (start_line_idx + Z.of_nat (length current) - 1)%Z in
  let meta := metadata d in
  let meta :=
    <["start_line" := default (VInt (start_line_idx + 1)) (meta !! "start_line")]> meta in
  let meta :=
    <["end_line" := default (VInt (end_line_idx + 1)) (meta !! "end_line")]> meta in
  {| page_content := chunk_text; metadata := meta |}.

Section Splitter.
Variables chunk_size chunk_overlap : Z.

Definition overlap_of (cur : list string) : list string :=
  overlap_scan (rev cur) chunk_overlap [].

(** One iteration of [while i < len(lines)], with [line = lines[i]]. *)
Definition while_body (d : Document) (st : loop_state) (line : string)
  : loop_state :=
  let extra := (len line + 1)%Z in
  if ((chunk_size <? current_len st + extra)%Z
      && negb (bool_decide (current st = [])))%bool
  then
    let out' := out st ++ [make_chunk d (start_line_idx st) (current st)] in
    let current' := overlap_of (current st) in
    {| out := out';
       current := current';
       current_len := lines_len current';
       start_line_idx := (Z.of_nat (i st) - Z.of_nat (length current'))%Z;
       i := i st |}
  else
    {| out := out st;
       current := current st ++ [line];
       current_len := (current_len st + extra)%Z;
       start_line_idx := start_line_idx st;
       i := S (i st) |}.

(** The state after at most [k] iterations of the while loop. *)
Fixpoint run (k : nat) (d : Document) (lines : list string) (st : loop_state)
  : loop_state :=
  match k with
  | O => st
  | S k' =>
      match lines !! i st with
      | None => st
      | Some line => run k' d lines (while_body d st line)
      end
  end.

(** The while loop; [None] when [fuel] iterations did not reach its exit. *)
Fixpoint while_loop (fuel : nat) (d : Document) (lines : list string)
         (st : loop_state) : option loop_state :=
  match lines !! i st with
  | None => Some st
  | Some line =>
      match fuel with
      | O => None
      | S fuel' => while_loop fuel' d lines (while_body d st line)
      end
  end.

(** [if current: ...] after the loop. *)
Definition flush (d : Document) (st : loop_state) : list Document :=
  match current st with
  | [] => out st
  | _ => out st ++ [make_chunk d (start_line_idx st) (current st)]
  end.

Definition init (out0 : list Document) : loop_state :=
  {| out := out0; current := []; current_len := 0; start_line_idx := 0; i := 0 |}.

(** The body of [for d in docs], appending to [out0]. *)
Definition split_document (fuel : nat) (d : Document) (out0 : list Document)
  : option (list Document) :=
  st ← while_loop fuel d (splitlines (page_content d)) (init out0);
  Some (flush d st).

Fixpoint split_documents_from (fuel : nat) (docs : list Document)
         (out0 : list Document) : option (list Document) :=
  match docs with
  | [] => Some out0
  | d :: ds =>
      out1 ← split_document fuel d out0;
      split_documents_from fuel ds out1
  end.

(** [split_documents(docs)] *)
Definition split_documents (fuel : nat) (docs : list Document)
  : option (list Document) :=
  split_documents_from fuel docs [].

(** The chunks appended for [d] after at most [k] loop iterations. *)
Definition emitted (k : nat) (d : Document) : list Document :=
  out (run k d (splitlines (page_content d)) (init [])).

End Splitter.

End LineAwareSplitter.

(** ** The chunking stage of [ingest] ([run.py], the chunk profile selector) *)

Module Ingest.
Import Config.

(** [v.lower()]: only a [str] has the method. *)
Definition str_lower (v : value) : res string :=
  match v with
  | VStr s => Ok (lower s)
  | _ => Raise (AttributeError "object has no attribute 'lower'")
  end.

(** [pattern in v]: substring test on a [str], membership on a list, key
    membership on a dict; any other value is not iterable. *)
Definition py_in (pattern : string) (v : value) : res bool :=
  match v with
  | VStr s => Ok (contains pattern s)
  | VList l =>
      Ok (existsb (fun x => match x with
                            | VStr s => String.eqb s pattern
                            | _ => false
                            end) l)
  | VDict kvs => Ok (existsb (fun kv => String.eqb (fst kv) pattern) kvs)
  | _ => Raise (TypeError "argument is not iterable")
  end.

(** [any(pattern in relpath for pattern in patterns)] *)
Fixpoint any_in (patterns : list string) (relpath : value) : res bool :=
  match patterns with
  | [] => Ok false
  | pattern :: rest =>
      bind (py_in pattern relpath)
           (fun b => if b then Ok true else any_in rest relpath)
  end.

(** [v == s] for a string literal [s]. *)
Definition eq_str (v : value) (s : string) : bool :=
  match v with
  | VStr t => String.eqb t s
  | _ => false
  end.

(** [x in {...}] for string literals. *)
Definition str_in (x : string) (xs : list string) : bool :=
  existsb (String.eqb x) xs.

(** One pass of [for doc in all_docs]: the chunks added for [doc].  The
    inner [None] is a splitter loop that did not finish within [fuel]. *)
Definition chunk_document (chunk_chars chunk_overlap : Z) (fuel : nat)
           (doc : Document) : res (option (list Document)) :=
  bind (str_lower (default (VStr "") (metadata doc !! "ext"))) (fun ext =>
  let relpath := default (VStr "") (metadata doc !! "relpath") in
  let kind := default (VStr "") (metadata doc !! "kind") in
  bind (any_in PROPS_FILE_PATTERNS relpath) (fun is_props =>
  if is_props then
    Ok (Some [doc])
  else if eq_str kind "example" then
    Ok (LineAwareSplitter.split_documents
          EXAMPLE_CHUNK_CHARS EXAMPLE_CHUNK_OVERLAP fuel [doc])
  else if (eq_str kind "docs" || str_in ext [".md"; ".mdx"])%bool then
    Ok (LineAwareSplitter.split_documents
          DOCS_CHUNK_CHARS DOCS_CHUNK_OVERLAP fuel [doc])
  else if str_in ext [".ts"; ".tsx"] then
    Ok (LineAwareSplitter.split_documents
          TS_CHUNK_CHARS TS_CHUNK_OVERLAP fuel [doc])
  else
    Ok (LineAwareSplitter.split_documents chunk_chars chunk_overlap fuel [doc]))).

(** The whole [for doc in all_docs] loop, extending [chunks]. *)
Fixpoint chunk_all (chunk_chars chunk_overlap : Z) (fuel : nat)
         (all_docs : list Document) (chunks : list Document)
  : res (option (list Document)) :=
  match all_docs with
  | [] => Ok (Some chunks)
  | doc :: rest =>
      bind (chunk_document chunk_chars chunk_overlap fuel doc) (fun r =>
      match r with
      | None => Ok None
      | Some cs => chunk_all chunk_chars chunk_overlap fuel rest (chunks ++ cs)
      end)
  end.

End Ingest.

(** ** The component registry shared by the document builders *)

Record Registry : Type := mkRegistry {
  component_counts : gmap string Z;
  component_files : gmap string (gset string)
}.

(** [component_counts[c] = component_counts.get(c, 0) + 1;
     component_files.setdefault(c, set()).add(relpath)] *)
Definition register (relpath : string) (reg : Registry) (c : string) : Registry :=
  {| component_counts :=
       <[c := (default 0%Z (component_counts reg !! c) + 1)%Z]> (component_counts reg);
     component_files :=
       <[c := default ∅ (component_files reg !! c) ∪ {[relpath]}]> (component_files reg) |}.

(** A file handed to a document builder: [str(p.resolve())],
    [str(p.relative_to(project_root))], [p.suffix], [p.name] and the result
    of [p.read_text(...)] ([None] when reading raises). *)
Record SourceFile : Type := mkSourceFile {
  resolved : string;
  relpath : string;
  suffix : string;
  name : string;
  read_text : option string
}.

(** ** The symbol extractor ([utils.py], [source.py]) *)

Module Extractor.

(** An element of the list [re.findall] returns: a string when the pattern
    has one group, a tuple of strings when it has several. *)
Inductive re_match : Type :=
| MStr (s : string)
| MTuple (groups : list string).

Inductive language : Type := TypeScript | TSX | JavaScript.

Inductive query_source : Type :=
| TS_TSX_QUERY
| JS_JSX_QUERY
| ADDITIONAL_PATTERNS_QUERY.

Definition is_upper (a : ascii) : bool :=
  let n := N_of_ascii a in ((65 <=? n) && (n <=? 90))%N.

Definition is_alnum (a : ascii) : bool :=
  let n := N_of_ascii a in
  (((65 <=? n) && (n <=? 90)) || ((97 <=? n) && (n <=? 122)) ||
   ((48 <=? n) && (n <=? 57)))%N.

Fixpoint alnum_to_end (s : string) : bool :=
  match s with
  | EmptyString => true
  | String c rest =>
      if is_alnum c then alnum_to_end rest
      else (Ascii.eqb c "010" && String.eqb rest EmptyString)%bool
  end.

(** [re.match(r'^[A-Z][A-Za-z0-9]*$', s)] finds a match. *)
Definition is_pascal (s : string) : bool :=
  match s with
  | EmptyString => false
  | String c rest => (is_upper c && alnum_to_end rest)%bool
  end.

Definition export_patterns : list string :=
  [ "export\s+(?:default\s+)?(?:function|const|class)\s+([A-Z][A-Za-z0-9]*)\b";
    "export\s+{\s*([A-Z][A-Za-z0-9]*)\s*}";
    "export\s+{\s*([A-Z][A-Za-z0-9]*)\s+as\s+[A-Za-z0-9]+\s*}";
    "export\s+(?:default\s+)?(?:const|let|var)\s+([A-Z][A-Za-z0-9]*)\s*=";
    "export\s+interface\s+([A-Z][A-Za-z0-9]*)\b";
    "export\s+type\s+([A-Z][A-Za-z0-9]*)\b" ]%string.

Definition css_prop_pattern : string := "--([a-zA-Z][a-zA-Z0-9-]*):".
Definition class_pattern : string := "\.([a-zA-Z][a-zA-Z0-9-_]*)".
Definition layer_pattern : string := "@layer\s+([a-zA-Z][a-zA-Z0-9-_]*)".

Definition add_if (ok : string -> bool) (components : gset string) (s : string)
  : gset string :=
  if ok s then components ∪ {[s]} else components.

(** [''.join(word.capitalize() for word in s.split('-'))] *)
Definition pascal_case (s : string) : string :=
  join "" (map capitalize (split_on "-" s EmptyString)).

(** The body of [for prop in css_props: ...]: [prop.split('-')] needs a
    [str]; a tuple has no [split]. *)
Definition pascal_case_of (m : re_match) : res string :=
  match m with
  | MStr s => Ok (pascal_case s)
  | MTuple _ => Raise (AttributeError "'tuple' object has no attribute 'split'")
  end.

Fixpoint add_pascal (ms : list re_match) (components : gset string)
  : res (gset string) :=
  match ms with
  | [] => Ok components
  | m :: rest =>
      bind (pascal_case_of m) (fun pascal => add_pascal rest (components ∪ {[pascal]}))
  end.

Section Extractor.
(** [re.findall(pattern, text)] of the standard library. *)
Variable re_findall : string -> string -> list re_match.
(** [str.isidentifier] *)
Variable isidentifier : string -> bool.
(** Tree-sitter: the parser of an extension run on [bytes(text, "utf8")],
    [Query(Language(...), query_string)], and the two capture calls, each
    returning the decoded text and the capture name of every captured node. *)
Variable tree : Type.
Variable query : Type.
Variable parser_parse : string -> string -> res tree.
Variable make_query : language -> query_source -> res query.
Variable query_captures : query -> tree -> res (list (string * string)).
Variable query_execute : query -> tree -> res (list (string * string)).

(** [extract_css_components] *)
Definition extract_css_components (text : string) : res (gset string) :=
  bind (add_pascal (re_findall css_prop_pattern text) ∅) (fun components =>
  bind (add_pascal (re_findall class_pattern text) components) (fun components =>
  add_pascal (re_findall layer_pattern text) components)).

(** [infer_components_from_text] *)
Definition infer_components_from_text (text : string) : gset string :=
  fold_left
    (fun components pattern =>
       fold_left
         (fun acc m =>
            match m with
            | MTuple groups => fold_left (add_if is_pascal) groups acc
            | MStr s => add_if is_pascal acc s
            end)
         (re_findall pattern text) components)
    export_patterns ∅.

(** [_execute_query_safely] *)
Definition _execute_query_safely (q : query) (root_node : tree)
  : res (list (string * string)) :=
  match query_captures q root_node with
  | Raise (AttributeError _) =>
      match query_execute q root_node with
      | Raise (AttributeError _) => Ok []
      | r => r
      end
  | r => r
  end.

Definition is_name (s : string) : bool :=
  (negb (String.eqb s EmptyString) && isidentifier s)%bool.

(** The body of the [try] block of [extract_components_with_ast]. *)
Definition ast_body (text file_ext : string) : res (gset string) :=
  bind (parser_parse file_ext text) (fun tree =>
  let '(query_string, query_lang) :=
    if Ingest.str_in file_ext [".tsx"; ".ts"]
    then (TS_TSX_QUERY, if String.eqb file_ext ".ts" then TypeScript else TSX)
    else (JS_JSX_QUERY, JavaScript) in
  bind (make_query query_lang query_string) (fun q =>
  bind (_execute_query_safely q tree) (fun captures =>
  let components :=
    fold_left (fun acc c => add_if is_name acc (fst c)) captures ∅ in
  bind (make_query query_lang ADDITIONAL_PATTERNS_QUERY) (fun additional_query =>
  bind (_execute_query_safely additional_query tree) (fun additional_captures =>
  Ok (fold_left
        (fun acc c =>
           if Ingest.str_in (snd c) ["memo.component"; "ref.component"; "direct.component"]
           then add_if is_name acc (fst c) else acc)
        additional_captures components)))))).

(** [extract_components_with_ast]; the keys of [PARSERS] are the four
    extensions. *)
Definition extract_components_with_ast (text file_ext : string) : res (gset string) :=
  if negb (Ingest.str_in file_ext [".ts"; ".tsx"; ".js"; ".jsx"]) then Ok ∅
  else try_except (ast_body text file_ext)
                  (fun _ => Ok (infer_components_from_text text)).

(** [infer_components_from_text_enhanced], with [file_path.suffix] given. *)
Definition infer_components_from_text_enhanced (text file_suffix : string)
  : res (gset string) :=
  let ext := lower file_suffix in
  bind (if Ingest.str_in ext [".ts"; ".tsx"; ".js"; ".jsx"]
        then extract_components_with_ast text ext else Ok ∅) (fun components =>
  if negb (bool_decide (components = ∅)) then Ok components
  else
    bind (if Ingest.str_in ext [".css"; ".scss"]
          then extract_css_components text else Ok ∅) (fun css_components =>
    if negb (bool_decide (css_components = ∅)) then Ok css_components
    else Ok (infer_components_from_text text))).

(** [process_source_file]; returns the documents and the updated registry.
    Every element of [comp_list] is a [str], so the loop skips none. *)
Definition process_source_file (p : SourceFile) (reg : Registry)
  : res (list Document * Registry) :=
  match read_text p with
  | None => Ok ([], reg)
  | Some text =>
      let ext := lower (suffix p) in
      if Ingest.str_in ext [".md"; ".mdx"] then Ok ([], reg)
      else
        bind (infer_components_from_text_enhanced text (suffix p)) (fun components =>
        let meta : gmap string value :=
          <["ext" := VStr ext]>
          (<["kind" := VStr "code"]>
          (<["relpath" := VStr (relpath p)]>
          (<["path" := VStr (resolved p)]> ∅))) in
        if negb (bool_decide (components = ∅)) then
          let comp_list := merge_sort String.le (elements components) in
          bind (match comp_list with
                | first :: _ => Ok first
                | [] => Raise (OtherError "IndexError")
                end) (fun first =>
          let meta := <["component" := VStr first]> meta in
          let meta := <["components" := VStr (join ", " comp_list)]> meta in
          Ok ([mkDocument text meta], fold_left (register (relpath p)) comp_list reg))
        else
          let meta := <["components" := VStr ""]> meta in
          Ok ([mkDocument text meta], reg))
  end.

End Extractor.
End Extractor.

(** ** The documentation builder ([docs.py]) *)

Module Docs.

(** [", ".join(comp_list)]: every item has to be a [str]. *)
Fixpoint str_items (vs : list value) : res (list string) :=
  match vs with
  | [] => Ok []
  | VStr s :: rest => bind (str_items rest) (fun ss => Ok (s :: ss))
  | _ :: _ => Raise (TypeError "sequence item: expected str instance")
  end.

(** [frontmatter_component and frontmatter_component is not True
     and frontmatter_component is not False] *)
Definition is_component (v : value) : bool :=
  (truthy v
   && negb (match v with VBool true => true | _ => false end)
   && negb (match v with VBool false => true | _ => false end))%bool.

(** The loop [for c in comp_list] over the registry. *)
Definition register_all (relpath : string) (comp_list : list value) (reg : Registry)
  : Registry :=
  fold_left
    (fun reg c =>
       match c with
       | VStr s => register relpath reg s
       | _ => reg
       end)
    comp_list reg.

(** [d[key] = d.get(key, 0) + 1] *)
Definition bump (key : string) (stats : gmap string Z) : gmap string Z :=
  <[key := (default 0%Z (stats !! key) + 1)%Z]> stats.

Section Docs.
(** [frontmatter.loads(text)] of python-frontmatter, as the mapping of the
    parsed preamble; [None] when it raises. *)
Variable frontmatter_loads : string -> option (gmap string value).

(** [process_documentation_file]; returns the documents, the updated registry
    and the updated [docs_stats]. *)
Definition process_documentation_file (p : SourceFile) (reg : Registry)
           (docs_stats : gmap string Z)
  : res (list Document * Registry * gmap string Z) :=
  match read_text p with
  | None => Ok ([], reg, docs_stats)
  | Some text =>
      let ext := lower (suffix p) in
      if negb (Ingest.str_in ext [".md"; ".mdx"]) then Ok ([], reg, docs_stats)
      else
        let '(frontmatter_title, frontmatter_description, frontmatter_component) :=
          match frontmatter_loads text with
          | Some parsed =>
              (default VNone (parsed !! "title"),
               default VNone (parsed !! "description"),
               default VNone (parsed !! "component"))
          | None => (VNone, VNone, VNone)
          end in
        (* comps: a set with at most one element *)
        bind (if is_component frontmatter_component
              then if hashable frontmatter_component
                   then Ok [frontmatter_component]
                   else Raise (TypeError "unhashable type")
              else Ok []) (fun comps =>
        let meta : gmap string value :=
          <["h3" := VStr ""]>
          (<["h2" := VStr ""]>
          (<["h1" := VStr ""]>
          (<["description" := or_else frontmatter_description (VStr "")]>
          (<["title" := or_else frontmatter_title (VStr "")]>
          (<["ext" := VStr ext]>
          (<["kind" := VStr "docs"]>
          (<["relpath" := VStr (relpath p)]>
          (<["path" := VStr (resolved p)]> ∅)))))))) in
        bind (match comps with
              | _ :: _ =>
                  let comp_list := comps in
                  bind (if is_component frontmatter_component
                        then
                          let meta := <["component" := frontmatter_component]> meta in
                          bind (str_items comp_list) (fun ss =>
                          Ok (<["components" := VStr (join ", " ss)]> meta))
                        else
                          let meta := <["component" := default VNone (head comp_list)]> meta in
                          bind (str_items comp_list) (fun ss =>
                          Ok (<["components" := VStr (join ", " ss)]> meta)))
                       (fun meta => Ok (meta, register_all (relpath p) comp_list reg))
              | [] => Ok (<["components" := VStr ""]> meta, reg)
              end) (fun '(meta, reg) =>
        let docs := [mkDocument text meta] in
        let docs_stats := bump "sections" (bump "pages" docs_stats) in
        let docs_stats :=
          if truthy frontmatter_title then bump "titled_pages" docs_stats
          else docs_stats in
        Ok (docs, reg, docs_stats)))
  end.

End Docs.
End Docs.

(** ** The example-project builder ([examples.py]) *)

Module Examples.

(** A path yielded by [example_path.glob(pattern)]. *)
Record ExampleFile : Type := mkExampleFile {
  file_relpath : string;
  file_name : string;
  file_suffix : string;
  is_file : bool;
  file_read : res string
}.

(** An example project directory: [str(example_path)], [example_path.name],
    [example_path.exists()], [str(example_path.relative_to(project_root))],
    its README.md and package.json ([None] when the path does not exist,
    otherwise the result of reading it) and its [glob]. *)
Record ExampleDir : Type := mkExampleDir {
  example_path : string;
  example_name : string;
  example_exists : bool;
  example_relpath : string;
  readme : option (res string);
  package_json : option (res string);
  glob : string -> list ExampleFile
}.

(** [d.get(key, dflt)] on a parsed JSON value; only a dict has [get]. *)
Definition dict_get (v : value) (key : string) (dflt : value) : res value :=
  match v with
  | VDict kvs =>
      Ok (default dflt (snd <$> find (fun kv => String.eqb (fst kv) key) kvs))
  | _ => Raise (AttributeError "object has no attribute 'get'")
  end.

(** [s or dflt] on strings. *)
Definition str_or (s dflt : string) : string :=
  if String.eqb s "" then dflt else s.

Fixpoint chars (s : string) : list string :=
  match s with
  | EmptyString => []
  | String c rest => String c EmptyString :: chars rest
  end.

(** [", ".join(v)]: [v] has to be an iterable of [str]. *)
Definition join_value (sep : string) (v : value) : res string :=
  match v with
  | VStr s => Ok (join sep (chars s))
  | VList l => bind (Docs.str_items l) (fun ss => Ok (join sep ss))
  | VDict kvs => Ok (join sep (map fst kvs))
  | _ => Raise (TypeError "can only join an iterable")
  end.

(** [get_file_type] *)
Definition get_file_type (file_name file_suffix : string) : string :=
  let name := lower file_name in
  let suffix := lower file_suffix in
  if String.eqb name "package.json" then "dependencies"
  else if endswith name ".config." then "configuration"
  else if Ingest.str_in suffix [".tsx"; ".jsx"] then "react_component"
  else if Ingest.str_in suffix [".ts"; ".js"] then "typescript"
  else if Ingest.str_in suffix [".css"; ".scss"; ".sass"] then "stylesheet"
  else if (String.eqb suffix ".md" || String.eqb suffix ".mdx")%bool then "documentation"
  else if String.eqb suffix ".html" then "html"
  else if String.eqb suffix ".json" then "configuration"
  else "other".

Section Examples.
(** The chat model: [llm.invoke(prompt.format_messages(readme_content=...,
    package_json_content=..., project_name=...)).content]. *)
Variable llm_invoke : string -> string -> string -> res string.
(** [json.loads] *)
Variable json_loads : string -> res value.
(** [str(v)], as an f-string formats a value. *)
Variable py_str : value -> string.
(** [DEFAULT_INCLUDE_EXTS] in the order the set is iterated. *)
Variable include_exts : list string.

Definition read_or_empty (f : option (res string)) : res string :=
  match f with
  | None => Ok ""
  | Some r => r
  end.

(** [analyze_example_with_llm] *)
Definition analyze_example_with_llm (ex : ExampleDir) : res (gmap string value) :=
  bind (read_or_empty (readme ex)) (fun readme_content =>
  bind (read_or_empty (package_json ex)) (fun package_json_content =>
  if (String.eqb readme_content "" && String.eqb package_json_content "")%bool then
    Raise (ValueError ("No README.md or package.json found in " +:+ example_path ex))
  else
    bind (llm_invoke (str_or readme_content "No README found")
                     (str_or package_json_content "No package.json found")
                     (example_name ex)) (fun content =>
    if String.eqb (strip content) "" then
      Raise (ValueError ("LLM returned empty response for " +:+ example_path ex))
    else
      bind (match json_loads content with
            | Raise (JSONDecodeError e) =>
                Raise (ValueError ("LLM returned invalid JSON for "
                                   +:+ example_path ex +:+ ": " +:+ e))
            | r => r
            end) (fun analysis =>
      bind (dict_get analysis "description" (VStr "")) (fun description =>
      bind (dict_get analysis "framework" (VStr "unknown")) (fun framework =>
      bind (dict_get analysis "build_tool" (VStr "unknown")) (fun build_tool =>
      bind (dict_get analysis "complexity" (VInt 1)) (fun complexity =>
      bind (dict_get analysis "example_type" (VStr "")) (fun example_type =>
      bind (dict_get analysis "key_features" (VList [])) (fun key_features =>
      Ok (<["key_features" := key_features]>
          (<["example_type" := example_type]>
          (<["complexity" := complexity]>
          (<["build_tool" := build_tool]>
          (<["framework" := framework]>
          (<["description" := description]> ∅)))))))))))))))).

Definition get (m : gmap string value) (key : string) (dflt : value) : value :=
  default dflt (m !! key).

Definition files_to_process : list string :=
  ["package.json"; "README.md"; "*.config.*"]
  ++ flat_map (fun ext =>
                 if String.eqb ext ".json" then []
                 else ["src/**/*" +:+ ext; "*" +:+ ext])
              include_exts.

(** The metadata of one file of the project. *)
Definition file_metadata (base_metadata : gmap string value) (example_type : value)
           (f : ExampleFile) : gmap string value :=
  let m :=
    <["file_type" := VStr (get_file_type (file_name f) (file_suffix f))]>
    (<["filename" := VStr (file_name f)]>
    (<["ext" := VStr (file_suffix f)]>
    (<["relpath" := VStr (file_relpath f)]> base_metadata))) in
  let describe (file_type what : string) :=
    <["description" := VStr (what +:+ " for " +:+ py_str example_type +:+ " example")]>
    (<["file_type" := VStr file_type]> m) in
  if String.eqb (file_name f) "package.json" then
    describe "dependencies" "Dependencies and scripts"
  else if Ingest.str_in (file_suffix f) [".tsx"; ".ts"; ".jsx"; ".js"] then
    describe "implementation" "Implementation code"
  else if Ingest.str_in (file_suffix f) [".css"; ".scss"; ".sass"] then
    describe "stylesheet" "Styling and CSS"
  else if Ingest.str_in (file_suffix f) [".md"; ".mdx"] then
    describe "documentation" "Documentation"
  else if String.eqb (file_suffix f) ".html" then
    describe "html" "HTML template"
  else if (endswith (file_name f) ".config." || String.eqb (file_suffix f) ".json")%bool then
    describe "configuration" "Build configuration"
  else m.

(** The body of [for file_path in example_path.glob(pattern)]; a read that
    raises is caught and the file skipped. *)
Definition process_file (base_metadata : gmap string value) (example_type : value)
           (docs : list Document) (f : ExampleFile) : list Document :=
  if (is_file f && negb (startswith (file_name f) "."))%bool then
    match file_read f with
    | Ok content =>
        if negb (String.eqb (strip content) "")
        then docs ++ [mkDocument content (file_metadata base_metadata example_type f)]
        else docs
    | Raise _ => docs
    end
  else docs.

(** [process_example_project] *)
Definition process_example_project (ex : ExampleDir) : res (list Document) :=
  if negb (example_exists ex) then Ok []
  else
    bind (analyze_example_with_llm ex) (fun analysis =>
    bind (join_value ", " (get analysis "key_features" (VList []))) (fun key_features =>
    let base_metadata : gmap string value :=
      <["component" := VStr "none"]>
      (<["ext" := VStr ".example"]>
      (<["relpath" := VStr (example_relpath ex)]>
      (<["key_features" := VStr key_features]>
      (<["description" := get analysis "description" (VStr "")]>
      (<["complexity" := get analysis "complexity" (VInt 1)]>
      (<["framework" := get analysis "framework" (VStr "unknown")]>
      (<["build_tool" := get analysis "build_tool" (VStr "unknown")]>
      (<["example_type" := get analysis "example_type" (VStr "")]>
      (<["kind" := VStr "example"]> ∅))))))))) in
    let example_type := get analysis "example_type" (VStr "") in
    Ok (fold_left
          (fun docs pattern =>
             fold_left (process_file base_metadata example_type) (glob ex pattern) docs)
          files_to_process [])))
  .

End Examples.
End Examples.

(** * Specification vocabulary *)

Import LineAwareSplitter Config.

(** The lines numbered [start_line] to [end_line] (1-based, inclusive). *)
Definition line_slice (lines : list string) (start_line end_line : Z) : list string :=
  take (Z.to_nat (end_line - start_line + 1)) (drop (Z.to_nat (start_line - 1)) lines).

(** [c] is produced by the splitter for [d]: appended to [out] after some
    number of loop iterations, or an element of the returned list. *)
Definition produced (chunk_size chunk_overlap : Z) (d c : Document) : Prop :=
  (exists k, c ∈ emitted chunk_size chunk_overlap k d)
  \/ (exists fuel res,
        split_documents chunk_size chunk_overlap fuel [d] = Some res /\ c ∈ res).

(** [cur] is the run of [length cur] lines that starts at index [s]. *)
Definition window (lines : list string) (s : nat) (cur : list string) : Prop :=
  cur = take (length cur) (drop s lines) /\ (s + length cur <= length lines)%nat.

(** The buffer is within the target size, or a single line. *)
Definition fits (chunk_size : Z) (cur : list string) : Prop :=
  (lines_len cur <= chunk_size)%Z \/ (length cur <= 1)%nat.

Definition chunk_from (chunk_size : Z) (d : Document) (lines : list string)
           (c : Document) : Prop :=
  exists s cur,
    cur <> [] /\ window lines s cur /\ fits chunk_size cur
    /\ c = make_chunk d (Z.of_nat s) cur.

(** The invariant of the while loop. *)
Record loop_inv (chunk_size : Z) (d : Document) (lines : list string)
       (out0 : list Document) (st : loop_state) : Prop := {
  inv_start : (0 <= start_line_idx st)%Z;
  inv_i : Z.of_nat (i st) = (start_line_idx st + Z.of_nat (length (current st)))%Z;
  inv_window : window lines (Z.to_nat (start_line_idx st)) (current st);
  inv_len : current_len st = lines_len (current st);
  inv_fits : fits chunk_size (current st);
  inv_out : exists cs, out st = out0 ++ cs /\ Forall (chunk_from chunk_size d lines) cs
}.

(** A state the while loop never leaves: the line at [i] does not fit, and
    the carried-over tail of the buffer is the whole buffer. *)
Definition stuck (chunk_size chunk_overlap : Z) (lines : list string)
           (st : loop_state) : Prop :=
  exists line,
    lines !! i st = Some line
    /\ current st <> []
    /\ (chunk_size < current_len st + (len line + 1))%Z
    /\ overlap_of chunk_overlap (current st) = current st
    /\ current_len st = lines_len (current st)
    /\ start_line_idx st = (Z.of_nat (i st) - Z.of_nat (length (current st)))%Z.

Definition with_out (st : loop_state) (o : list Document) : loop_state :=
  {| out := o; current := current st; current_len := current_len st;
     start_line_idx := start_line_idx st; i := i st |}.

(** Line [n] lies in the line range [c] carries. *)
Definition covers (c : Document) (n : Z) : Prop :=
  exists start_line end_line : Z,
    metadata c !! "start_line" = Some (VInt start_line)
    /\ metadata c !! "end_line" = Some (VInt end_line)
    /\ (start_line <= n <= end_line)%Z.

Definition covered_below (st : loop_state) : Prop :=
  forall n, (1 <= n <= start_line_idx st)%Z -> exists c, c ∈ out st /\ covers c n.

(** The next iteration appends its line (lines of at most [M] characters). *)
Definition ready (chunk_overlap M : Z) (st : loop_state) : Prop :=
  current st = [] \/ (current_len st <= chunk_overlap + M)%Z.

(** [c] carries a line range within the lines of the content of [doc]. *)
Definition line_range_ok (doc c : Document) : Prop :=
  exists start_line end_line : Z,
    metadata c !! "start_line" = Some (VInt start_line)
    /\ metadata c !! "end_line" = Some (VInt end_line)
    /\ (1 <= start_line <= end_line)%Z
    /\ (end_line <= Z.of_nat (length (splitlines (page_content doc))))%Z.

Definition no_line_keys (doc : Document) : Prop :=
  metadata doc !! "start_line" = None /\ metadata doc !! "end_line" = None.

(** [doc.metadata.get("relpath", "")] *)
Definition relpath_of (doc : Document) : value :=
  default (VStr "") (metadata doc !! "relpath").

(** The three ways the summarization step of an example project fails: no
    README.md and no package.json, an empty response, a response that is not
    JSON. *)
Inductive summarization_fails
          (llm_invoke : string -> string -> string -> res string)
          (json_loads : string -> res value) (ex : Examples.ExampleDir) : Prop :=
| no_sources :
    Examples.readme ex = None -> Examples.package_json ex = None ->
    summarization_fails llm_invoke json_loads ex
| empty_response (readme_content package_json_content content : string) :
    Examples.read_or_empty (Examples.readme ex) = Ok readme_content ->
    Examples.read_or_empty (Examples.package_json ex) = Ok package_json_content ->
    (readme_content <> "" \/ package_json_content <> "") ->
    llm_invoke (Examples.str_or readme_content "No README found")
               (Examples.str_or package_json_content "No package.json found")
               (Examples.example_name ex) = Ok content ->
    strip content = "" ->
    summarization_fails llm_invoke json_loads ex
| invalid_json (readme_content package_json_content content e : string) :
    Examples.read_or_empty (Examples.readme ex) = Ok readme_content ->
    Examples.read_or_empty (Examples.package_json ex) = Ok package_json_content ->
    (readme_content <> "" \/ package_json_content <> "") ->
    llm_invoke (Examples.str_or readme_content "No README found")
               (Examples.str_or package_json_content "No package.json found")
               (Examples.example_name ex) = Ok content ->
    strip content <> "" ->
    json_loads content = Raise (JSONDecodeError e) ->
    summarization_fails llm_invoke json_loads ex.

(** * Concrete inputs *)

(** The metadata [process_source_file] gives a file in which no symbol is
    found. *)
Definition code_metadata (path relpath ext : string) : gmap string value :=
  <["components" := VStr ""]>
  (<["ext" := VStr ext]>
  (<["kind" := VStr "code"]>
  (<["relpath" := VStr relpath]>
  (<["path" := VStr path]> ∅)))).

Definition long_line : string := String.concat "" (repeat "b"%string 4000).

(** A script whose second line is 4000 characters long. *)
Definition stuck_doc : Document :=
  {| page_content := "a" +:+ nl +:+ long_line;
     metadata := code_metadata "/repo/src/bundle.js" "bundle.js" ".js" |}.

(** A props-definition file. *)
Definition props_doc : Document :=
  {| page_content := "type Props = {}";
     metadata := code_metadata "/repo/src/ButtonProps.ts" "ButtonProps.ts" ".ts" |}.

(** A five-line script, split with target 10 and overlap 2. *)
Definition demo_doc : Document :=
  {| page_content :=
       "aa" +:+ nl +:+ "bbb" +:+ nl +:+ "c" +:+ nl +:+ "dddd" +:+ nl +:+ "ee";
     metadata := code_metadata "/repo/src/util.js" "util.js" ".js" |}.

(** The same script, already annotated with a line range by an earlier
    splitter. *)
Definition annotated_doc : Document :=
  {| page_content := page_content demo_doc;
     metadata := <["end_line" := VInt 44]> (<["start_line" := VInt 40]> (metadata demo_doc)) |}.

Definition demo_first_chunk : Document := make_chunk demo_doc 0 ["aa"; "bbb"; "c"].
Definition demo_chunk : Document := make_chunk demo_doc 2 ["c"; "dddd"; "ee"].

(** An extractor whose parser raises on every input, and a regex engine that
    finds one exported interface. *)
Definition failing_parse (file_ext text : string) : res unit :=
  Raise (OtherError "parse failed").
Definition unit_query (l : Extractor.language) (q : Extractor.query_source) : res unit :=
  Ok tt.
Definition no_captures (q t : unit) : res (list (string * string)) := Ok [].
Definition demo_findall (pattern text : string) : list Extractor.re_match :=
  if String.eqb pattern "export\s+interface\s+([A-Z][A-Za-z0-9]*)\b"
  then [Extractor.MStr "Baz"] else [].
Definition ascii_identifier (s : string) : bool := Extractor.is_pascal s.

(** A documentation page whose front matter says [component: true]. *)
Definition demo_page_text : string :=
  "---" +:+ nl +:+ "component: true" +:+ nl +:+ "---" +:+ nl +:+ "# Button".
Definition demo_page : SourceFile :=
  {| resolved := "/repo/docs/content/button.mdx";
     relpath := "button.mdx";
     suffix := ".mdx";
     name := "button.mdx";
     read_text := Some demo_page_text |}.
Definition demo_frontmatter (text : string) : option (gmap string value) :=
  Some (<["component" := VBool true]> ∅).
Definition empty_registry : Registry :=
  {| component_counts := ∅; component_files := ∅ |}.

(** An example project with neither README.md nor package.json. *)
Definition bare_example : Examples.ExampleDir :=
  {| Examples.example_path := "examples/bare";
     Examples.example_name := "bare";
     Examples.example_exists := true;
     Examples.example_relpath := "examples/bare";
     Examples.readme := None;
     Examples.package_json := None;
     Examples.glob := fun _ => [] |}.
Definition silent_llm (readme package_json project_name : string) : res string := Ok "".
Definition strict_json (s : string) : res value := Raise (JSONDecodeError "Expecting value").
Definition plain_str (v : value) : string :=
  match v with
  | VStr s => s
  | _ => ""
  end.

(** * The built-ins on small inputs *)

Example splitlines_newlines :
  splitlines ("ab" +:+ nl +:+ "cd" +:+ nl) = ["ab"; "cd"].
Proof. reflexivity. Qed.

Example splitlines_crlf_and_blank :
  splitlines ("ab" +:+ String "013" nl +:+ nl +:+ "cd") = ["ab"; ""; "cd"].
Proof. reflexivity. Qed.

Example splitlines_empty : splitlines "" = [].
Proof. reflexivity. Qed.

Example splitlines_only_newline : splitlines nl = [""].
Proof. reflexivity. Qed.

Example rstrip_keeps_inner_space : rstrip ("a  b " +:+ nl) = "a  b".
Proof. reflexivity. Qed.

Example rstrip_blank : rstrip "   " = "".
Proof. reflexivity. Qed.

Example contains_props : contains "Props.ts" "components/ButtonProps.tsx" = true.
Proof. reflexivity. Qed.

Example contains_other : contains "Props.ts" "components/Button.tsx" = false.
Proof. reflexivity. Qed.

Example pascal_case_kebab : Extractor.pascal_case "button-primary" = "ButtonPrimary".
Proof. reflexivity. Qed.

Example is_pascal_hook : Extractor.is_pascal "useTheme" = false.
Proof. reflexivity. Qed.

(** * Properties of the line-aware splitter *)

(** ** Lengths and the carried-over tail *)

Lemma lines_len_cons x a : lines_len (x :: a) = (len x + 1 + lines_len a)%Z.
Proof. reflexivity. Qed.

Lemma len_nonneg s : (0 <= len s)%Z.
Proof. unfold len. lia. Qed.

Lemma lines_len_app a b : lines_len (a ++ b) = (lines_len a + lines_len b)%Z.
Proof.
  induction a as [|x a IH]; [reflexivity|].
  change ((x :: a) ++ b) with (x :: (a ++ b)). rewrite !lines_len_cons, IH. lia.
Qed.

Lemma lines_len_nonneg a : (0 <= lines_len a)%Z.
Proof.
  induction a as [|x a IH]; [by compute|].
  rewrite lines_len_cons. pose proof (len_nonneg x). lia.
Qed.

Lemma overlap_scan_suffix rc : forall rem acc,
  exists pre, rev rc ++ acc = pre ++ overlap_scan rc rem acc.
Proof.
  induction rc as [|l below IH]; intros rem acc; simpl.
  - by exists [].
  - destruct (0 <? rem)%Z.
    + destruct (IH (rem - (len l + 1))%Z (l :: acc)) as [pre Hpre].
      exists pre. rewrite <- Hpre. by rewrite <- app_assoc.
    + exists (rev below ++ [l]). done.
Qed.

Lemma overlap_of_suffix chunk_overlap cur :
  exists pre, cur = pre ++ overlap_of chunk_overlap cur.
Proof.
  unfold overlap_of. destruct (overlap_scan_suffix (rev cur) chunk_overlap []) as [pre H].
  exists pre. rewrite <- H. by rewrite rev_involutive, app_nil_r.
Qed.

Lemma length_rstrip s : (String.length (rstrip s) <= String.length s)%nat.
Proof.
  induction s as [|c s IH]; simpl; [lia|].
  destruct (rstrip s) eqn:E.
  - destruct (is_space c); simpl; lia.
  - simpl in *. lia.
Qed.

Lemma len_append a b : len (a +:+ b) = (len a + len b)%Z.
Proof.
  unfold len. induction a as [|c a IH]; [reflexivity|].
  change (String c a +:+ b) with (String c (a +:+ b)).
  cbn [String.length]. lia.
Qed.

Lemma len_join_nl cur : cur <> [] -> len (join nl cur) = (lines_len cur - 1)%Z.
Proof.
  induction cur as [|x cur IH]; [done|]. intros _.
  destruct cur as [|y cur].
  - rewrite lines_len_cons. change (join nl [x]) with x. change (lines_len []) with 0%Z. lia.
  - specialize (IH ltac:(done)).
    change (join nl (x :: y :: cur)) with (x +:+ nl +:+ join nl (y :: cur)).
    rewrite !len_append, IH, (lines_len_cons x). change (len nl) with 1%Z. lia.
Qed.

(** ** The loop invariant *)

Section SplitterInvariant.
Variables chunk_size chunk_overlap : Z.
Variable d : Document.
Variable lines : list string.
Variable out0 : list Document.

Lemma window_nil s : (s <= length lines)%nat -> window lines s [].
Proof. intros. split; [reflexivity | simpl; lia]. Qed.

Lemma window_snoc s cur line :
  window lines s cur -> lines !! (s + length cur)%nat = Some line ->
  window lines s (cur ++ [line]).
Proof.
  intros [Hcur Hle] Hline. split.
  - rewrite length_app; simpl. rewrite Nat.add_1_r.
    rewrite (take_S_r _ _ line) by (by rewrite lookup_drop).
    by rewrite <- Hcur.
  - apply lookup_lt_Some in Hline. rewrite length_app; simpl. lia.
Qed.

Lemma window_suffix s pre tail :
  window lines s (pre ++ tail) -> window lines (s + length pre) tail.
Proof.
  intros [Hcur Hle]. rewrite length_app in Hle. split; [|lia].
  rewrite <- drop_drop, take_drop_commute, <- length_app, <- Hcur.
  by rewrite drop_app_length.
Qed.

Lemma fits_suffix pre tail : fits chunk_size (pre ++ tail) -> fits chunk_size tail.
Proof.
  intros [H|H]; [left|right].
  - rewrite lines_len_app in H. pose proof (lines_len_nonneg pre). lia.
  - rewrite length_app in H. lia.
Qed.

Lemma inv_init : loop_inv chunk_size d lines out0 (init out0).
Proof.
  split; simpl.
  - lia.
  - lia.
  - apply window_nil. lia.
  - reflexivity.
  - right. simpl. lia.
  - exists []. by rewrite app_nil_r.
Qed.

Lemma inv_chunk st :
  loop_inv chunk_size d lines out0 st -> current st <> [] ->
  chunk_from chunk_size d lines (make_chunk d (start_line_idx st) (current st)).
Proof.
  intros [Hs _ Hw _ Hfit _] Hne.
  exists (Z.to_nat (start_line_idx st)), (current st).
  rewrite Z2Nat.id by done. unfold window in *. repeat split; try done; apply Hw.
Qed.

Lemma inv_body st line :
  loop_inv chunk_size d lines out0 st -> lines !! i st = Some line ->
  loop_inv chunk_size d lines out0 (while_body chunk_size chunk_overlap d st line).
Proof.
  intros Hinv Hline. pose proof (inv_chunk st Hinv) as Hchunk.
  destruct Hinv as [Hs Hi Hw Hlen Hfit [cs [Hout Hcs]]].
  assert (i st = Z.to_nat (start_line_idx st) + length (current st))%nat as Hi' by lia.
  unfold while_body.
  destruct (_ && _) eqn:Hcond.
  - apply andb_true_iff in Hcond as [_ Hne].
    apply negb_true_iff, bool_decide_eq_false in Hne.
    destruct (overlap_of_suffix chunk_overlap (current st)) as [pre Hpre].
    set (tail := overlap_of chunk_overlap (current st)) in *.
    assert (length (current st) = length pre + length tail)%nat as Hl
      by (by rewrite Hpre at 1; rewrite length_app).
    split; simpl.
    + lia.
    + lia.
    + replace (Z.to_nat (Z.of_nat (i st) - Z.of_nat (length tail)))
        with (Z.to_nat (start_line_idx st) + length pre)%nat by lia.
      apply window_suffix. by rewrite <- Hpre.
    + reflexivity.
    + apply (fits_suffix pre). by rewrite <- Hpre.
    + exists (cs ++ [make_chunk d (start_line_idx st) (current st)]).
      split; [by rewrite Hout, app_assoc|].
      apply Forall_app; split; [done|]. apply Forall_singleton. by apply Hchunk.
  - split; simpl.
    + lia.
    + rewrite length_app; simpl. lia.
    + apply window_snoc; [done|]. by rewrite <- Hi'.
    + rewrite lines_len_app, Hlen. rewrite lines_len_cons. change (lines_len []) with 0%Z. lia.
    + apply andb_false_iff in Hcond as [Hc|Hc].
      * left. rewrite lines_len_app, lines_len_cons, <- Hlen.
        change (lines_len []) with 0%Z. apply Z.ltb_ge in Hc. lia.
      * right. apply negb_false_iff, bool_decide_eq_true in Hc. rewrite Hc. simpl. lia.
    + by exists cs.
Qed.

Lemma inv_run k : forall st,
  loop_inv chunk_size d lines out0 st ->
  loop_inv chunk_size d lines out0 (run chunk_size chunk_overlap k d lines st).
Proof.
  induction k as [|k IH]; intros st Hinv; simpl; [done|].
  destruct (lines !! i st) as [line|] eqn:Hline; [|done].
  apply IH. by apply inv_body.
Qed.

Lemma while_loop_run fuel : forall st st',
  while_loop chunk_size chunk_overlap fuel d lines st = Some st' ->
  st' = run chunk_size chunk_overlap fuel d lines st /\ lines !! i st' = None.
Proof.
  induction fuel as [|fuel IH]; intros st st'; simpl.
  - destruct (lines !! i st) eqn:E; [done|]. intros [= <-]. done.
  - destruct (lines !! i st) eqn:E.
    + apply IH.
    + intros [= <-]. done.
Qed.

Lemma inv_flush st :
  loop_inv chunk_size d lines out0 st ->
  exists cs, flush d st = out0 ++ cs /\ Forall (chunk_from chunk_size d lines) cs.
Proof.
  intros Hinv. pose proof (inv_chunk st Hinv) as Hchunk.
  destruct Hinv as [_ _ _ _ _ [cs [Hout Hcs]]]. unfold flush.
  destruct (current st) eqn:E.
  - by exists cs.
  - exists (cs ++ [make_chunk d (start_line_idx st) (s :: l)]).
    split; [by rewrite Hout, app_assoc|].
    apply Forall_app; split; [done|]. apply Forall_singleton. by apply Hchunk.
Qed.

End SplitterInvariant.

(** ** Every produced chunk comes from a window of the lines *)

Lemma split_documents_single chunk_size chunk_overlap fuel d res :
  split_documents chunk_size chunk_overlap fuel [d] = Some res ->
  exists st,
    while_loop chunk_size chunk_overlap fuel d (splitlines (page_content d)) (init [])
    = Some st /\ res = flush d st.
Proof.
  unfold split_documents, split_documents_from, split_document.
  destruct (while_loop _ _ _ _ _ _) as [st|]; simpl; [|done].
  intros [= <-]. by exists st.
Qed.

Lemma produced_chunk_from chunk_size chunk_overlap d c :
  produced chunk_size chunk_overlap d c ->
  chunk_from chunk_size d (splitlines (page_content d)) c.
Proof.
  set (lines := splitlines (page_content d)).
  pose proof (inv_init chunk_size d lines []) as Hinit.
  intros [[k Hc]|(fuel & res & Hres & Hc)].
  - unfold emitted in Hc. fold lines in Hc.
    destruct (inv_run chunk_size chunk_overlap d lines [] k _ Hinit)
      as [_ _ _ _ _ [cs [Hout Hcs]]].
    rewrite Hout in Hc. simpl in Hc. by eapply Forall_forall in Hcs.
  - apply split_documents_single in Hres as (st & Hloop & ->). fold lines in Hloop.
    apply while_loop_run in Hloop as [-> _].
    destruct (inv_flush chunk_size d lines [] _
                (inv_run chunk_size chunk_overlap d lines [] fuel _ Hinit))
      as [cs [Hout Hcs]].
    rewrite Hout in Hc. simpl in Hc. by eapply Forall_forall in Hcs.
Qed.

(** The same for a list of Documents: the returned list is made of chunks
    of the Documents, each from a window of the lines of its own Document. *)
Lemma split_documents_from_chunks chunk_size chunk_overlap fuel docs :
  forall out0 res,
    split_documents_from chunk_size chunk_overlap fuel docs out0 = Some res ->
    exists cs,
      res = out0 ++ cs
      /\ Forall (fun c => exists d,
                   d ∈ docs /\ chunk_from chunk_size d (splitlines (page_content d)) c)
                cs.
Proof.
  induction docs as [|d ds IH]; intros out0 res; cbn [split_documents_from].
  - intros [= <-]. exists []. split; [by rewrite app_nil_r | constructor].
  - unfold split_document.
    destruct (while_loop _ _ _ _ _ _) as [st|] eqn:Hloop; simpl; [|done].
    intros Hrest. apply while_loop_run in Hloop as [-> _].
    destruct (inv_flush chunk_size d (splitlines (page_content d)) out0 _
                (inv_run chunk_size chunk_overlap d _ out0 fuel _
                   (inv_init chunk_size d (splitlines (page_content d)) out0)))
      as (cs1 & Hout1 & Hcs1).
    rewrite Hout1 in Hrest. destruct (IH _ _ Hrest) as (cs2 & -> & Hcs2).
    exists (cs1 ++ cs2). split; [by rewrite app_assoc|].
    apply Forall_app; split.
    + eapply Forall_impl; [exact Hcs1|]. intros c Hc. exists d.
      split; [apply list_elem_of_here | done].
    + eapply Forall_impl; [exact Hcs2|]. intros c (d' & Hd' & Hc). exists d'.
      split; [by apply list_elem_of_further | done].
Qed.

Lemma make_chunk_start d s cur :
  metadata (make_chunk d s cur) !! "start_line"
  = Some (default (VInt (s + 1)) (metadata d !! "start_line")).
Proof. unfold make_chunk; simpl. rewrite lookup_insert_ne by done. by rewrite lookup_insert_eq. Qed.

Lemma make_chunk_end d s cur :
  metadata (make_chunk d s cur) !! "end_line"
  = Some (default (VInt (s + Z.of_nat (length cur))) (metadata d !! "end_line")).
Proof.
  unfold make_chunk; simpl. rewrite lookup_insert_eq.
  rewrite lookup_insert_ne by done. do 3 f_equal. lia.
Qed.

Lemma make_chunk_other d s cur key :
  key <> "start_line" -> key <> "end_line" ->
  metadata (make_chunk d s cur) !! key = metadata d !! key.
Proof. intros. unfold make_chunk; simpl. by rewrite !lookup_insert_ne. Qed.

Lemma window_slice lines s cur :
  window lines s cur ->
  line_slice lines (Z.of_nat s + 1) (Z.of_nat s + Z.of_nat (length cur)) = cur.
Proof.
  intros [Hcur _]. unfold line_slice.
  replace (Z.to_nat (Z.of_nat s + 1 - 1)) with s by lia.
  replace (Z.to_nat (_ - _ + 1)) with (length cur) by lia. done.
Qed.

(** Claim C2.  For a Document without [start_line]/[end_line] of its own and
    any chunk profile, every chunk the splitter produces carries a line range
    [start_line..end_line] and is built from a buffer whose join with newlines
    is the join of the lines [start_line..end_line] of the original content;
    the chunk's content is that text right-trimmed. *)
Theorem split_line_range_correct (chunk_size chunk_overlap : Z) (d c : Document) :
  metadata d !! "start_line" = None ->
  metadata d !! "end_line" = None ->
  produced chunk_size chunk_overlap d c ->
  exists (start_line end_line : Z) (buffer : list string),
    metadata c !! "start_line" = Some (VInt start_line)
    /\ metadata c !! "end_line" = Some (VInt end_line)
    /\ c = make_chunk d (start_line - 1) buffer
    /\ page_content c = rstrip (join nl buffer)
    /\ join nl (line_slice (splitlines (page_content d)) start_line end_line)
       = join nl buffer.
Proof.
  intros Hs He Hc.
  destruct (produced_chunk_from _ _ _ _ Hc) as (s & cur & Hne & Hw & _ & ->).
  exists (Z.of_nat s + 1)%Z, (Z.of_nat s + Z.of_nat (length cur))%Z, cur.
  rewrite make_chunk_start, make_chunk_end, Hs, He, (window_slice _ _ _ Hw).
  repeat split; try done.
  by replace (Z.of_nat s + 1 - 1)%Z with (Z.of_nat s) by lia.
Qed.

Lemma demo_split :
  split_documents 10 2 10 [demo_doc] = Some [demo_first_chunk; demo_chunk].
Proof. vm_compute. reflexivity. Qed.

Lemma demo_produced : produced 10 2 demo_doc demo_chunk.
Proof.
  right. exists 10%nat, [demo_first_chunk; demo_chunk].
  split; [exact demo_split|]. apply list_elem_of_further, list_elem_of_here.
Qed.

Lemma split_line_range_correct_witness :
  metadata demo_doc !! "start_line" = None
  /\ metadata demo_doc !! "end_line" = None
  /\ produced 10 2 demo_doc demo_chunk
  /\ exists (start_line end_line : Z) (buffer : list string),
       metadata demo_chunk !! "start_line" = Some (VInt start_line)
       /\ metadata demo_chunk !! "end_line" = Some (VInt end_line)
       /\ demo_chunk = make_chunk demo_doc (start_line - 1) buffer
       /\ page_content demo_chunk = rstrip (join nl buffer)
       /\ join nl (line_slice (splitlines (page_content demo_doc)) start_line end_line)
          = join nl buffer.
Proof.
  split; [reflexivity|]. split; [reflexivity|]. split; [exact demo_produced|].
  apply (split_line_range_correct 10 2 demo_doc demo_chunk);
    [reflexivity | reflexivity | exact demo_produced].
Defined.

Lemma window_lookup lines s l : window lines s [l] -> lines !! s = Some l.
Proof.
  intros [Hcur Hle]. simpl in *.
  destruct (drop s lines) as [|x rest] eqn:E; [done|].
  simpl in Hcur. injection Hcur as ->.
  rewrite <- (Nat.add_0_r s), <- lookup_drop, E. done.
Qed.

Lemma window_elem lines s cur l : window lines s cur -> l ∈ cur -> l ∈ lines.
Proof.
  intros [Hcur _] Hl. rewrite Hcur in Hl.
  apply subseteq_take in Hl. by apply subseteq_drop in Hl.
Qed.

(** Claim C4.  Every chunk the splitter produces is either a single line
    longer than the target size, or its content is at most the target size
    plus the length of a line of the source, whichever line is taken (here
    for every profile, so also for those with [0 <= overlap < target]). *)
Theorem split_soft_size_bound (chunk_size chunk_overlap : Z) (d c : Document) :
  produced chunk_size chunk_overlap d c ->
  (exists (n : nat) (line : string),
      splitlines (page_content d) !! n = Some line
      /\ (chunk_size < len line)%Z
      /\ c = make_chunk d (Z.of_nat n) [line])
  \/ (forall line, line ∈ splitlines (page_content d) ->
        (len (page_content c) <= chunk_size + len line)%Z).
Proof.
  intros Hc.
  destruct (produced_chunk_from _ _ _ _ Hc) as (s & cur & Hne & Hw & Hfit & ->).
  assert (len (page_content (make_chunk d (Z.of_nat s) cur)) <= lines_len cur - 1)%Z
    as Hlen.
  { rewrite <- len_join_nl by done. unfold len; simpl.
    pose proof (length_rstrip (join nl cur)). lia. }
  destruct Hfit as [Hfit|Hfit].
  - right. intros line _. pose proof (len_nonneg line). lia.
  - destruct cur as [|l [|l' cur]]; [done| |simpl in Hfit; lia].
    rewrite lines_len_cons in Hlen. change (lines_len []) with 0%Z in Hlen.
    destruct (Z.ltb_spec chunk_size (len l)).
    + left. exists s, l. split; [by apply window_lookup|done].
    + right. intros line _. pose proof (len_nonneg line). lia.
Qed.

Lemma split_soft_size_bound_witness :
  produced 10 2 demo_doc demo_chunk
  /\ ((exists (n : nat) (line : string),
         splitlines (page_content demo_doc) !! n = Some line
         /\ (10 < len line)%Z
         /\ demo_chunk = make_chunk demo_doc (Z.of_nat n) [line])
      \/ (forall line, line ∈ splitlines (page_content demo_doc) ->
            (len (page_content demo_chunk) <= 10 + len line)%Z)).
Proof.
  split; [exact demo_produced|].
  exact (split_soft_size_bound 10 2 demo_doc demo_chunk demo_produced).
Defined.

(** Claim C6.  A chunk the splitter produces agrees with the source metadata
    on every key other than [start_line] and [end_line]; and a [start_line]
    or [end_line] already on the source metadata is the value the chunk
    carries. *)
Theorem split_metadata_frame (chunk_size chunk_overlap : Z) (d c : Document) :
  produced chunk_size chunk_overlap d c ->
  (forall key, key <> "start_line" -> key <> "end_line" ->
      metadata c !! key = metadata d !! key)
  /\ (forall v, metadata d !! "start_line" = Some v ->
        metadata c !! "start_line" = Some v)
  /\ (forall v, metadata d !! "end_line" = Some v ->
        metadata c !! "end_line" = Some v).
Proof.
  intros Hc.
  destruct (produced_chunk_from _ _ _ _ Hc) as (s & cur & _ & _ & _ & ->).
  split; [|split].
  - intros key ??. by apply make_chunk_other.
  - intros v Hv. by rewrite make_chunk_start, Hv.
  - intros v Hv. by rewrite make_chunk_end, Hv.
Qed.

Lemma split_metadata_frame_witness :
  produced 10 2 demo_doc demo_chunk
  /\ (forall key, key <> "start_line" -> key <> "end_line" ->
        metadata demo_chunk !! key = metadata demo_doc !! key)
  /\ (forall v, metadata demo_doc !! "start_line" = Some v ->
        metadata demo_chunk !! "start_line" = Some v)
  /\ (forall v, metadata demo_doc !! "end_line" = Some v ->
        metadata demo_chunk !! "end_line" = Some v).
Proof.
  split; [exact demo_produced|].
  exact (split_metadata_frame 10 2 demo_doc demo_chunk demo_produced).
Defined.

(** A Document that already has a line range keeps it on every chunk. *)
Example annotated_chunks_keep_their_range :
  (fun c => (metadata c !! "start_line", metadata c !! "end_line"))
    <$> default [] (split_documents 10 2 10 [annotated_doc])
  = [(Some (VInt 40), Some (VInt 44)); (Some (VInt 40), Some (VInt 44))].
Proof. vm_compute. reflexivity. Qed.

Lemma produced_line_range (chunk_size chunk_overlap : Z) (d c : Document) :
  metadata d !! "start_line" = None ->
  metadata d !! "end_line" = None ->
  produced chunk_size chunk_overlap d c ->
  line_range_ok d c.
Proof.
  intros Hs He Hc.
  destruct (produced_chunk_from _ _ _ _ Hc) as (s & cur & Hne & [_ Hle] & _ & ->).
  exists (Z.of_nat s + 1)%Z, (Z.of_nat s + Z.of_nat (length cur))%Z.
  rewrite make_chunk_start, make_chunk_end, Hs, He.
  destruct cur; [done|]. simpl in *. repeat split; try done; lia.
Qed.

(** ** Inputs on which the while loop never exits *)

Section Divergence.
Variables chunk_size chunk_overlap : Z.
Variable d : Document.
Variable lines : list string.

Lemma stuck_body st line :
  stuck chunk_size chunk_overlap lines st -> lines !! i st = Some line ->
  while_body chunk_size chunk_overlap d st line
  = with_out st (out st ++ [make_chunk d (start_line_idx st) (current st)]).
Proof.
  intros (line' & Hl & Hne & Hbig & Hov & Hlen & Hs) Hline.
  rewrite Hl in Hline. injection Hline as ->.
  unfold while_body, with_out.
  replace (chunk_size <? current_len st + (len line + 1))%Z with true
    by (symmetry; apply Z.ltb_lt; lia).
  rewrite bool_decide_eq_false_2 by done. simpl.
  rewrite Hov. f_equal; congruence.
Qed.

Lemma stuck_with_out st o :
  stuck chunk_size chunk_overlap lines st ->
  stuck chunk_size chunk_overlap lines (with_out st o).
Proof. intros (line & H). by exists line. Qed.

Lemma stuck_while_loop fuel : forall st,
  stuck chunk_size chunk_overlap lines st ->
  while_loop chunk_size chunk_overlap fuel d lines st = None.
Proof.
  induction fuel as [|fuel IH]; intros st Hst;
    pose proof Hst as (line & Hl & _); simpl; rewrite Hl; [done|].
  rewrite (stuck_body st line Hst Hl). apply IH. by apply stuck_with_out.
Qed.

Lemma stuck_run k : forall st,
  stuck chunk_size chunk_overlap lines st ->
  run chunk_size chunk_overlap k d lines st
  = with_out st (out st ++ replicate k (make_chunk d (start_line_idx st) (current st))).
Proof.
  induction k as [|k IH]; intros st Hst; simpl.
  - rewrite app_nil_r. by destruct st.
  - pose proof Hst as (line & Hl & _). rewrite Hl.
    rewrite (stuck_body st line Hst Hl), IH by (by apply stuck_with_out).
    unfold with_out; simpl. by rewrite <- app_assoc.
Qed.

(** With a positive overlap the carried-over tail of a buffer is never empty:
    it contains at least the last line. *)
Lemma overlap_of_single a : (0 < chunk_overlap)%Z -> overlap_of chunk_overlap [a] = [a].
Proof.
  intros H. unfold overlap_of; simpl.
  by replace (0 <? chunk_overlap)%Z with true by (symmetry; apply Z.ltb_lt; lia).
Qed.

Lemma two_lines_stuck a b rest :
  lines = a :: b :: rest ->
  (0 < chunk_overlap)%Z ->
  (chunk_size < len a + 1 + (len b + 1))%Z ->
  stuck chunk_size chunk_overlap lines
        (while_body chunk_size chunk_overlap d (init []) a).
Proof.
  intros -> Hov Hbig. exists b. unfold while_body; simpl.
  rewrite andb_false_r; simpl.
  repeat split; try done.
  - by apply overlap_of_single.
  - lia.
Qed.

End Divergence.

(** Every profile with a positive overlap has documents on which the loop
    never exits: a second line that does not fit next to the first one. *)
Lemma split_diverges_two_lines (chunk_size chunk_overlap : Z) (d : Document) a b rest :
  splitlines (page_content d) = a :: b :: rest ->
  (0 < chunk_overlap)%Z ->
  (chunk_size < len a + 1 + (len b + 1))%Z ->
  forall fuel, split_documents chunk_size chunk_overlap fuel [d] = None.
Proof.
  intros Hlines Hov Hbig fuel.
  unfold split_documents, split_documents_from, split_document.
  rewrite Hlines. destruct fuel as [|fuel]; [done|]. simpl.
  rewrite <- Hlines.
  by rewrite (stuck_while_loop chunk_size chunk_overlap d _ fuel _
             (two_lines_stuck chunk_size chunk_overlap d _ a b rest Hlines Hov Hbig)).
Qed.

Lemma emitted_two_lines (chunk_size chunk_overlap : Z) (d : Document) a b rest k :
  splitlines (page_content d) = a :: b :: rest ->
  (0 < chunk_overlap)%Z ->
  (chunk_size < len a + 1 + (len b + 1))%Z ->
  emitted chunk_size chunk_overlap (S k) d = replicate k (make_chunk d 0 [a]).
Proof.
  intros Hlines Hov Hbig. unfold emitted. rewrite Hlines. simpl. rewrite <- Hlines.
  rewrite (stuck_run chunk_size chunk_overlap d _ k _
             (two_lines_stuck chunk_size chunk_overlap d _ a b rest Hlines Hov Hbig)).
  unfold while_body; simpl. by rewrite andb_false_r.
Qed.

Lemma stuck_doc_lines : splitlines (page_content stuck_doc) = ["a"; long_line].
Proof. vm_compute. reflexivity. Qed.

Lemma stuck_doc_too_long :
  (DEFAULT_CHUNK_CHARS < len "a" + 1 + (len long_line + 1))%Z.
Proof. vm_compute. reflexivity. Qed.

Lemma stuck_doc_default_profile fuel :
  Ingest.chunk_document DEFAULT_CHUNK_CHARS DEFAULT_CHUNK_OVERLAP fuel stuck_doc
  = Ok (split_documents DEFAULT_CHUNK_CHARS DEFAULT_CHUNK_OVERLAP fuel [stuck_doc]).
Proof. reflexivity. Qed.

(** Claim C1 (fails on the code).  The default profile has
    [0 <= overlap < target], yet on the two-line script [stuck_doc] the split
    returns for no amount of fuel: once the first line is buffered, the long
    second line never fits, and the carried-over tail of the buffer is the
    whole buffer, so every iteration closes the same chunk again.  The
    chunking stage of [ingest], which gives this Document the default profile,
    does not finish either. *)
Theorem split_diverges_on_long_second_line :
  (0 <= DEFAULT_CHUNK_OVERLAP < DEFAULT_CHUNK_CHARS)%Z
  /\ (forall fuel,
        split_documents DEFAULT_CHUNK_CHARS DEFAULT_CHUNK_OVERLAP fuel [stuck_doc] = None)
  /\ (forall fuel,
        Ingest.chunk_document DEFAULT_CHUNK_CHARS DEFAULT_CHUNK_OVERLAP fuel stuck_doc
        = Ok None).
Proof.
  assert (forall fuel,
             split_documents DEFAULT_CHUNK_CHARS DEFAULT_CHUNK_OVERLAP fuel [stuck_doc]
             = None) as Hdiv.
  { apply (split_diverges_two_lines _ _ _ "a" long_line []);
      [exact stuck_doc_lines | done | exact stuck_doc_too_long]. }
  split; [done|]. split; [exact Hdiv|].
  intros fuel. by rewrite stuck_doc_default_profile, Hdiv.
Qed.

(** Claim C3 (fails on the code).  [stuck_doc] has two lines, but every chunk
    the loop appends for it is the chunk of line 1 alone (lines 1 to 1), again
    and again, and the split never returns: line 2 is in no chunk's range. *)
Theorem split_never_covers_second_line :
  length (splitlines (page_content stuck_doc)) = 2%nat
  /\ (forall k,
        emitted DEFAULT_CHUNK_CHARS DEFAULT_CHUNK_OVERLAP (S k) stuck_doc
        = replicate k (make_chunk stuck_doc 0 ["a"]))
  /\ metadata (make_chunk stuck_doc 0 ["a"]) !! "start_line" = Some (VInt 1)
  /\ metadata (make_chunk stuck_doc 0 ["a"]) !! "end_line" = Some (VInt 1)
  /\ (forall fuel,
        split_documents DEFAULT_CHUNK_CHARS DEFAULT_CHUNK_OVERLAP fuel [stuck_doc] = None).
Proof.
  split; [by rewrite stuck_doc_lines|].
  split.
  { intros k. apply (emitted_two_lines _ _ _ "a" long_line []);
      [exact stuck_doc_lines | done | exact stuck_doc_too_long]. }
  split; [by rewrite make_chunk_start|].
  split; [by rewrite make_chunk_end|].
  apply (split_diverges_two_lines _ _ _ "a" long_line []);
    [exact stuck_doc_lines | done | exact stuck_doc_too_long].
Qed.

(** ** Coverage of the lines when the loop exits *)

Section Coverage.
Variables chunk_size chunk_overlap : Z.
Variable d : Document.
Variable lines : list string.
Hypothesis no_start : metadata d !! "start_line" = None.
Hypothesis no_end : metadata d !! "end_line" = None.

Lemma make_chunk_covers s cur n :
  (s + 1 <= n <= s + Z.of_nat (length cur))%Z -> covers (make_chunk d s cur) n.
Proof.
  intros Hn. exists (s + 1)%Z, (s + Z.of_nat (length cur))%Z.
  by rewrite make_chunk_start, make_chunk_end, no_start, no_end.
Qed.

Lemma covered_body out0 st line :
  loop_inv chunk_size d lines out0 st -> covered_below st ->
  covered_below (while_body chunk_size chunk_overlap d st line).
Proof.
  intros [Hs Hi _ _ _ _] Hcov. unfold while_body.
  destruct (_ && _); intros n Hn; simpl in *.
  - destruct (Z_le_gt_dec n (start_line_idx st)) as [Hle|Hgt].
    + destruct (Hcov n ltac:(lia)) as (c & Hc & Hcn).
      exists c. split; [|done]. apply elem_of_app. by left.
    + exists (make_chunk d (start_line_idx st) (current st)).
      split; [apply elem_of_app; right; by apply list_elem_of_singleton|].
      apply make_chunk_covers. lia.
  - by apply Hcov.
Qed.

Lemma covered_run out0 k : forall st,
  loop_inv chunk_size d lines out0 st -> covered_below st ->
  covered_below (run chunk_size chunk_overlap k d lines st).
Proof.
  induction k as [|k IH]; intros st Hinv Hcov; simpl; [done|].
  destruct (lines !! i st) as [line|] eqn:Hline; [|done].
  apply IH; [by apply inv_body | by eapply covered_body].
Qed.

Lemma covered_flush out0 st n :
  loop_inv chunk_size d lines out0 st -> covered_below st ->
  lines !! i st = None ->
  (1 <= n <= Z.of_nat (length lines))%Z ->
  exists c, c ∈ flush d st /\ covers c n.
Proof.
  intros [Hs Hi [_ Hle] _ _ _] Hcov Hexit Hn.
  apply lookup_ge_None_1 in Hexit.
  assert (Z.of_nat (length lines) = start_line_idx st + Z.of_nat (length (current st)))%Z
    as Hall by lia.
  unfold flush.
  destruct (Z_le_gt_dec n (start_line_idx st)) as [Hle'|Hgt].
  - destruct (Hcov n ltac:(lia)) as (c & Hc & Hcn). exists c. split; [|done].
    destruct (current st); [done|]. apply elem_of_app. by left.
  - destruct (current st) as [|l cur] eqn:E; [simpl in Hall; lia|].
    exists (make_chunk d (start_line_idx st) (l :: cur)).
    split; [apply elem_of_app; right; by apply list_elem_of_singleton|].
    apply make_chunk_covers. lia.
Qed.

End Coverage.

(** Whenever the loop exits, the chunks cover every line of the content. *)
Lemma coverage_when_split_returns (chunk_size chunk_overlap : Z) (d : Document) fuel res :
  metadata d !! "start_line" = None ->
  metadata d !! "end_line" = None ->
  split_documents chunk_size chunk_overlap fuel [d] = Some res ->
  forall n, (1 <= n <= Z.of_nat (length (splitlines (page_content d))))%Z ->
    exists c, c ∈ res /\ covers c n.
Proof.
  intros Hs He Hres n Hn.
  apply split_documents_single in Hres as (st & Hloop & ->).
  apply while_loop_run in Hloop as [-> Hexit].
  pose proof (inv_init chunk_size d (splitlines (page_content d)) []) as Hinit.
  eapply covered_flush; eauto.
  - by apply inv_run.
  - eapply covered_run; eauto. intros m Hm. simpl in Hm. lia.
Qed.

(** Empty content has no lines and yields no chunk, whatever the fuel. *)
Lemma split_empty (chunk_size chunk_overlap : Z) (d : Document) fuel :
  page_content d = EmptyString ->
  split_documents chunk_size chunk_overlap fuel [d] = Some [].
Proof.
  intros H. unfold split_documents, split_documents_from, split_document.
  rewrite H. by destruct fuel.
Qed.

(** ** Sufficient conditions for the loop to exit *)

(** Without overlap the buffer is emptied at every close, so the loop
    exits after at most two iterations per line. *)
Lemma overlap_of_nonpositive chunk_overlap cur :
  (chunk_overlap <= 0)%Z -> overlap_of chunk_overlap cur = [].
Proof.
  intros H. unfold overlap_of. destruct (rev cur); simpl; [done|].
  by replace (0 <? chunk_overlap)%Z with false by (symmetry; apply Z.ltb_ge; lia).
Qed.

Lemma while_loop_exits_without_overlap (chunk_size chunk_overlap : Z) (d : Document)
      (lines : list string) :
  (chunk_overlap <= 0)%Z ->
  forall fuel st,
    (2 * (length lines - i st) + (if bool_decide (current st = []) then 0 else 1)
     <= fuel)%nat ->
    is_Some (while_loop chunk_size chunk_overlap fuel d lines st).
Proof.
  intros Hov. induction fuel as [|fuel IH]; intros st Hfuel.
  - simpl. destruct (lines !! i st) eqn:E; [|done].
    apply lookup_lt_Some in E. lia.
  - simpl. destruct (lines !! i st) as [line|] eqn:E; [|done].
    apply lookup_lt_Some in E. apply IH. unfold while_body.
    destruct (_ && _) eqn:Hcond; simpl.
    + rewrite overlap_of_nonpositive by done.
      apply andb_true_iff in Hcond as [_ Hne]. apply negb_true_iff in Hne.
      rewrite Hne in Hfuel. rewrite bool_decide_eq_true_2 by done. lia.
    + rewrite bool_decide_eq_false_2 by (by destruct (current st)).
      destruct (bool_decide _); lia.
Qed.

Lemma split_returns_without_overlap (chunk_size chunk_overlap : Z) (d : Document) :
  (chunk_overlap <= 0)%Z ->
  exists res,
    split_documents chunk_size chunk_overlap
      (2 * length (splitlines (page_content d))) [d] = Some res.
Proof.
  intros Hov. unfold split_documents, split_documents_from, split_document.
  destruct (while_loop_exits_without_overlap chunk_size chunk_overlap d
              (splitlines (page_content d)) Hov
              (2 * length (splitlines (page_content d))) (init []))
    as [st Hst]; [simpl; lia|].
  rewrite Hst. simpl. eauto.
Qed.

Section ShortLines.
Variables chunk_size chunk_overlap M : Z.
Variable d : Document.
Variable lines : list string.
Hypothesis short : forall l, l ∈ lines -> (len l <= M)%Z.
Hypothesis room : (chunk_overlap + 2 * M + 1 <= chunk_size)%Z.

Lemma overlap_scan_bound rc : forall rem acc,
  (forall l, l ∈ rc -> (len l <= M)%Z) ->
  lines_len acc = (chunk_overlap - rem)%Z ->
  (acc = [] \/ lines_len acc <= chunk_overlap + M)%Z ->
  let tail := overlap_scan rc rem acc in
  tail = [] \/ (lines_len tail <= chunk_overlap + M)%Z.
Proof.
  induction rc as [|l below IH]; intros rem acc Hrc Hacc Hle; simpl; [done|].
  destruct (Z.ltb_spec 0 rem); [|done].
  apply IH.
  - intros l' Hl'. apply Hrc. by apply list_elem_of_further.
  - rewrite lines_len_cons. lia.
  - right. rewrite lines_len_cons. pose proof (Hrc l (list_elem_of_here _ _)). lia.
Qed.

Lemma overlap_of_bound cur :
  (forall l, l ∈ cur -> (len l <= M)%Z) ->
  overlap_of chunk_overlap cur = []
  \/ (lines_len (overlap_of chunk_overlap cur) <= chunk_overlap + M)%Z.
Proof.
  intros Hcur. unfold overlap_of. apply overlap_scan_bound.
  - intros l Hl. apply Hcur. by apply list_elem_of_In, in_rev, list_elem_of_In.
  - change (lines_len []) with 0%Z. lia.
  - by left.
Qed.

Lemma while_loop_exits_short_lines out0 : forall fuel st,
  loop_inv chunk_size d lines out0 st ->
  (2 * (length lines - i st) + 1 <= fuel)%nat
  \/ (ready chunk_overlap M st /\ (2 * (length lines - i st) <= fuel)%nat) ->
  is_Some (while_loop chunk_size chunk_overlap fuel d lines st).
Proof.
  induction fuel as [|fuel IH]; intros st Hinv Hfuel.
  - simpl. destruct (lines !! i st) eqn:E; [|done].
    apply lookup_lt_Some in E. lia.
  - simpl. destruct (lines !! i st) as [line|] eqn:E; [|done].
    pose proof (inv_body chunk_size chunk_overlap d lines out0 st line Hinv E) as Hinv'.
    pose proof (short line ltac:(by eapply list_elem_of_lookup_2)) as Hline.
    apply lookup_lt_Some in E. apply IH; [done|].
    destruct Hinv as [_ _ Hw Hlen _ _].
    unfold while_body. destruct (_ && _) eqn:Hcond; simpl.
    + apply andb_true_iff in Hcond as [Hbig Hne].
      apply Z.ltb_lt in Hbig. apply negb_true_iff, bool_decide_eq_false in Hne.
      right. split.
      * unfold ready; simpl. apply overlap_of_bound.
        intros l Hl. apply short. by eapply window_elem.
      * destruct Hfuel as [Hfuel|[[Hr|Hr] Hfuel]]; [lia|done|lia].
    + left. lia.
Qed.

End ShortLines.

(** A sufficient condition for the loop to exit under any overlap: the
    overlap and two lines (with one newline) fit in the target size. *)
Lemma split_returns_short_lines (chunk_size chunk_overlap M : Z) (d : Document) :
  (forall l, l ∈ splitlines (page_content d) -> (len l <= M)%Z) ->
  (chunk_overlap + 2 * M + 1 <= chunk_size)%Z ->
  exists res,
    split_documents chunk_size chunk_overlap
      (2 * length (splitlines (page_content d))) [d] = Some res.
Proof.
  intros Hshort Hroom. unfold split_documents, split_documents_from, split_document.
  destruct (while_loop_exits_short_lines chunk_size chunk_overlap M d
              (splitlines (page_content d)) Hshort Hroom []
              (2 * length (splitlines (page_content d))) (init []))
    as [st Hst].
  - apply inv_init.
  - right. split; [by left | simpl; lia].
  - rewrite Hst. simpl. eauto.
Qed.

(** * Properties of the chunking stage *)

Lemma any_in_str patterns relpath :
  Ingest.any_in patterns (VStr relpath)
  = Ok (existsb (fun pattern => contains pattern relpath) patterns).
Proof.
  induction patterns as [|p ps IH]; simpl; [done|].
  destruct (contains p relpath); simpl; [done|]. by rewrite IH.
Qed.

(** Claim C7.  A Document whose [relpath] contains one of the props-file
    patterns (and whose [ext], when present, is a string, as the builders set
    it) yields exactly one chunk, the Document itself, whatever its content,
    kind and extension, the default profile and the fuel: no splitter runs. *)
Theorem props_file_is_one_chunk (chunk_chars chunk_overlap : Z) (fuel : nat)
        (doc : Document) (relpath pattern : string) :
  metadata doc !! "relpath" = Some (VStr relpath) ->
  (forall v, metadata doc !! "ext" = Some v -> exists ext, v = VStr ext) ->
  pattern ∈ PROPS_FILE_PATTERNS ->
  contains pattern relpath = true ->
  Ingest.chunk_document chunk_chars chunk_overlap fuel doc = Ok (Some [doc]).
Proof.
  intros Hrel Hext Hpat Hmatch. unfold Ingest.chunk_document.
  assert (exists ext, Ingest.str_lower (default (VStr "") (metadata doc !! "ext")) = Ok ext)
    as [ext ->].
  { destruct (metadata doc !! "ext") as [v|] eqn:E; simpl; [|by eexists].
    destruct (Hext v eq_refl) as [e ->]. by eexists. }
  rewrite Hrel. cbn [bind default from_option id]. rewrite any_in_str.
  replace (existsb _ _) with true; [done|].
  symmetry. apply existsb_exists. exists pattern. split; [|done].
  by apply list_elem_of_In.
Qed.

Lemma props_file_is_one_chunk_witness :
  metadata props_doc !! "relpath" = Some (VStr "ButtonProps.ts")
  /\ contains "Props.ts" "ButtonProps.ts" = true
  /\ Ingest.chunk_document DEFAULT_CHUNK_CHARS DEFAULT_CHUNK_OVERLAP 0 props_doc
     = Ok (Some [props_doc]).
Proof.
  split; [reflexivity|]. split; [reflexivity|].
  apply (props_file_is_one_chunk DEFAULT_CHUNK_CHARS DEFAULT_CHUNK_OVERLAP 0 props_doc
           "ButtonProps.ts" "Props.ts").
  - reflexivity.
  - intros v Hv. exists ".ts". vm_compute in Hv. by injection Hv as <-.
  - apply list_elem_of_here.
  - reflexivity.
Defined.

(** Claim C5, as amended.  For a Document without [start_line]/[end_line] of
    its own (every Document the builders make): a chunk a splitter produces
    for it, under any profile, carries [start_line] and [end_line] with
    [1 <= start_line <= end_line <= line count]; and a chunk of the chunking
    stage is either the Document itself, when its [relpath] matches a
    props-file pattern, or such a chunk of a splitter. *)
Theorem split_chunks_carry_line_range (doc : Document) :
  metadata doc !! "start_line" = None ->
  metadata doc !! "end_line" = None ->
  (forall chunk_size chunk_overlap c,
      produced chunk_size chunk_overlap doc c -> line_range_ok doc c)
  /\ (forall chunk_chars chunk_overlap fuel chunks c,
        Ingest.chunk_document chunk_chars chunk_overlap fuel doc = Ok (Some chunks) ->
        c ∈ chunks ->
        (Ingest.any_in PROPS_FILE_PATTERNS (relpath_of doc) = Ok true /\ c = doc)
        \/ (Ingest.any_in PROPS_FILE_PATTERNS (relpath_of doc) = Ok false
            /\ line_range_ok doc c)).
Proof.
  intros Hs He. split; [intros ???; by apply produced_line_range|].
  intros chunk_chars chunk_overlap fuel chunks c Hrun Hc.
  unfold Ingest.chunk_document in Hrun. fold (relpath_of doc) in Hrun.
  destruct (Ingest.str_lower _) as [ext|]; cbn [bind] in Hrun; [|done].
  destruct (Ingest.any_in PROPS_FILE_PATTERNS (relpath_of doc)) as [[|]|];
    cbn [bind] in Hrun; [| |done].
  - left. split; [done|]. injection Hrun as <-. by apply list_elem_of_singleton in Hc.
  - right. split; [done|].
    assert (exists size overlap, produced size overlap doc c) as (size & overlap & Hp).
    { repeat match type of Hrun with
             | (if ?b then _ else _) = _ => destruct b
             end;
      injection Hrun as Hrun; do 2 eexists; right; eauto. }
    by eapply produced_line_range.
Qed.

(** Claim C5 as stated fails: the chunk of a props-definition file is the
    Document itself, which carries neither [start_line] nor [end_line]. *)
Lemma props_chunk_has_no_line_range :
  Ingest.chunk_document DEFAULT_CHUNK_CHARS DEFAULT_CHUNK_OVERLAP 0 props_doc
  = Ok (Some [props_doc])
  /\ metadata props_doc !! "start_line" = None
  /\ metadata props_doc !! "end_line" = None.
Proof. repeat split. Qed.

Lemma demo_default_profile :
  Ingest.chunk_document 10 2 10 demo_doc = Ok (Some [demo_first_chunk; demo_chunk]).
Proof. vm_compute. reflexivity. Qed.

Lemma split_chunks_carry_line_range_witness :
  no_line_keys demo_doc
  /\ produced 10 2 demo_doc demo_chunk
  /\ line_range_ok demo_doc demo_chunk.
Proof.
  split; [by split|]. split; [exact demo_produced|].
  exact (proj1 (split_chunks_carry_line_range demo_doc eq_refl eq_refl)
           10%Z 2%Z demo_chunk demo_produced).
Defined.

(** The whole loop over [all_docs]: every chunk it adds is a chunk of one
    pass for one of the Documents. *)
Lemma chunk_all_chunks chunk_chars chunk_overlap fuel all_docs :
  forall chunks res,
    Ingest.chunk_all chunk_chars chunk_overlap fuel all_docs chunks = Ok (Some res) ->
    exists cs,
      res = chunks ++ cs
      /\ Forall (fun c => exists doc doc_chunks,
                   doc ∈ all_docs
                   /\ Ingest.chunk_document chunk_chars chunk_overlap fuel doc
                      = Ok (Some doc_chunks)
                   /\ c ∈ doc_chunks) cs.
Proof.
  induction all_docs as [|doc rest IH]; intros chunks res; cbn [Ingest.chunk_all].
  - intros [= <-]. exists []. split; [by rewrite app_nil_r | constructor].
  - destruct (Ingest.chunk_document chunk_chars chunk_overlap fuel doc)
      as [[doc_chunks|]|] eqn:Hdoc; cbn [bind]; [|done|done].
    intros Hrest. destruct (IH _ _ Hrest) as (cs & -> & Hcs).
    exists (doc_chunks ++ cs). split; [by rewrite app_assoc|].
    apply Forall_app; split.
    + apply Forall_forall. intros c Hc. exists doc, doc_chunks.
      split; [apply list_elem_of_here | done].
    + eapply Forall_impl; [exact Hcs|]. intros c (doc' & cs' & Hin & Hrun & Hc).
      exists doc', cs'. split; [by apply list_elem_of_further | done].
Qed.

(** * Properties of the symbol extractor *)

Section ExtractorProofs.
Import Extractor.
Variable re_findall : string -> string -> list re_match.
Variable isidentifier : string -> bool.
Variable tree : Type.
Variable query : Type.
Variable parser_parse : string -> string -> res tree.
Variable make_query : language -> query_source -> res query.
Variable query_captures : query -> tree -> res (list (string * string)).
Variable query_execute : query -> tree -> res (list (string * string)).

Local Abbreviation ast_body :=
  (ast_body isidentifier tree query parser_parse make_query query_captures query_execute).
Local Abbreviation extract_components_with_ast :=
  (extract_components_with_ast re_findall isidentifier tree query parser_parse
     make_query query_captures query_execute).
Local Abbreviation infer_components_from_text_enhanced :=
  (infer_components_from_text_enhanced re_findall isidentifier tree query parser_parse
     make_query query_captures query_execute).
Local Abbreviation process_source_file :=
  (process_source_file re_findall isidentifier tree query parser_parse
     make_query query_captures query_execute).

Lemma extract_never_raises text file_ext :
  exists names, extract_components_with_ast text file_ext = Ok names.
Proof.
  unfold Extractor.extract_components_with_ast.
  destruct (negb _); [by eexists|].
  destruct (ast_body text file_ext); simpl; by eexists.
Qed.

Lemma not_stylesheet ext :
  Ingest.str_in ext [".ts"; ".tsx"; ".js"; ".jsx"] = true ->
  Ingest.str_in ext [".css"; ".scss"] = false.
Proof.
  unfold Ingest.str_in. cbn [existsb]. intros H.
  repeat match type of H with
         | context [String.eqb ?a ?b] =>
             destruct (String.eqb_spec a b) as [E|E];
             [by rewrite E | simpl in H; clear E]
         end.
  done.
Qed.

Lemma fallback_in_extract text ext e :
  Ingest.str_in ext [".ts"; ".tsx"; ".js"; ".jsx"] = true ->
  ast_body text ext = Raise e ->
  extract_components_with_ast text ext
  = Ok (infer_components_from_text re_findall text).
Proof.
  intros Hext Hraise. unfold Extractor.extract_components_with_ast.
  by rewrite Hext, Hraise.
Qed.

Lemma enhanced_never_raises text file_suffix :
  Ingest.str_in (lower file_suffix) [".ts"; ".tsx"; ".js"; ".jsx"] = true ->
  exists names, infer_components_from_text_enhanced text file_suffix = Ok names.
Proof.
  intros Hext. unfold Extractor.infer_components_from_text_enhanced.
  rewrite Hext, (not_stylesheet _ Hext).
  destruct (extract_never_raises text (lower file_suffix)) as [names ->].
  cbn [bind]. repeat (destruct (negb _)); by eexists.
Qed.

(** Claim C8.  [extract_components_with_ast] never raises, on any text and
    any tag, and neither does the entry point
    [infer_components_from_text_enhanced] on a tag of the JS/TS family; and
    for such a tag, whenever the body of the structural parse raises (the
    parser, a query or a capture call), the result of either is exactly the
    set the regex fallback [infer_components_from_text] gives for the text. *)
Theorem extractor_falls_back_to_regex (text file_ext : string) :
  (exists names, extract_components_with_ast text file_ext = Ok names)
  /\ (Ingest.str_in (lower file_ext) [".ts"; ".tsx"; ".js"; ".jsx"] = true ->
      exists names, infer_components_from_text_enhanced text file_ext = Ok names)
  /\ (forall e,
        Ingest.str_in file_ext [".ts"; ".tsx"; ".js"; ".jsx"] = true ->
        ast_body text file_ext = Raise e ->
        extract_components_with_ast text file_ext
        = Ok (infer_components_from_text re_findall text))
  /\ (forall e,
        Ingest.str_in (lower file_ext) [".ts"; ".tsx"; ".js"; ".jsx"] = true ->
        ast_body text (lower file_ext) = Raise e ->
        infer_components_from_text_enhanced text file_ext
        = Ok (infer_components_from_text re_findall text)).
Proof.
  split; [apply extract_never_raises|].
  split; [apply enhanced_never_raises|].
  split; [intros e; apply fallback_in_extract|].
  intros e Hext Hraise. unfold Extractor.infer_components_from_text_enhanced.
  rewrite Hext, (fallback_in_extract _ _ e Hext Hraise), (not_stylesheet _ Hext).
  cbn [bind].
  destruct (bool_decide (infer_components_from_text re_findall text = ∅)) eqn:E;
    cbn [negb]; [|done].
  by rewrite bool_decide_eq_true_2.
Qed.

Lemma process_source_file_no_line_keys p reg docs reg' doc :
  process_source_file p reg = Ok (docs, reg') -> doc ∈ docs ->
  metadata doc !! "start_line" = None /\ metadata doc !! "end_line" = None.
Proof.
  unfold Extractor.process_source_file.
  destruct (read_text p) as [text|]; [|intros [= <- _] H; by apply elem_of_nil in H].
  destruct (Ingest.str_in _ _); [intros [= <- _] H; by apply elem_of_nil in H|].
  destruct (infer_components_from_text_enhanced text (suffix p)) as [components|];
    cbn [bind]; [|done].
  destruct (negb _).
  - destruct (merge_sort _ _) as [|first rest]; cbn [bind]; [done|].
    intros [= <- _] ->%list_elem_of_singleton. simpl. by rewrite !lookup_insert_ne.
  - intros [= <- _] ->%list_elem_of_singleton. simpl. by rewrite !lookup_insert_ne.
Qed.

End ExtractorProofs.

Lemma extractor_falls_back_to_regex_witness :
  Extractor.ast_body ascii_identifier unit unit failing_parse unit_query
    no_captures no_captures "export interface Baz {}" ".ts"
  = Raise (OtherError "parse failed")
  /\ Extractor.extract_components_with_ast demo_findall ascii_identifier unit unit
       failing_parse unit_query no_captures no_captures "export interface Baz {}" ".ts"
     = Ok (Extractor.infer_components_from_text demo_findall "export interface Baz {}").
Proof.
  split; [reflexivity|].
  exact (proj1 (proj2 (proj2
           (extractor_falls_back_to_regex demo_findall ascii_identifier unit unit
              failing_parse unit_query no_captures no_captures
              "export interface Baz {}" ".ts")))
           (OtherError "parse failed") eq_refl eq_refl).
Defined.

(** * Properties of the documentation builder *)

Section DocsProofs.
Variable frontmatter_loads : string -> option (gmap string value).

(** Claim C9.  For a readable documentation file whose front matter has a
    boolean [component], the builder returns one Document with [components]
    equal to the empty string and no [component] key, and the registry (counts
    and files) is returned unchanged. *)
Theorem boolean_component_is_discarded (p : SourceFile) (reg : Registry)
        (docs_stats : gmap string Z) (text : string) (parsed : gmap string value)
        (b : bool) :
  read_text p = Some text ->
  Ingest.str_in (lower (suffix p)) [".md"; ".mdx"] = true ->
  frontmatter_loads text = Some parsed ->
  parsed !! "component" = Some (VBool b) ->
  exists doc docs_stats',
    Docs.process_documentation_file frontmatter_loads p reg docs_stats
    = Ok ([doc], reg, docs_stats')
    /\ page_content doc = text
    /\ metadata doc !! "components" = Some (VStr "")
    /\ metadata doc !! "component" = None.
Proof.
  intros Hread Hext Hfm Hcomp. unfold Docs.process_documentation_file.
  rewrite Hread, Hext, Hfm, Hcomp. cbn [negb default from_option id].
  assert (Docs.is_component (VBool b) = false) as -> by (by destruct b).
  cbn [bind]. eexists _, _. split; [reflexivity|].
  split; [done|]. cbn [metadata]. split.
  - by rewrite lookup_insert_eq.
  - by rewrite !lookup_insert_ne.
Qed.

Lemma process_documentation_file_no_line_keys p reg docs_stats docs reg' stats' doc :
  Docs.process_documentation_file frontmatter_loads p reg docs_stats
  = Ok (docs, reg', stats') ->
  doc ∈ docs ->
  metadata doc !! "start_line" = None /\ metadata doc !! "end_line" = None.
Proof.
  unfold Docs.process_documentation_file.
  destruct (read_text p) as [text|]; [|intros [= <- _ _] H; by apply elem_of_nil in H].
  destruct (negb _); [intros [= <- _ _] H; by apply elem_of_nil in H|].
  destruct (frontmatter_loads text) as [parsed|].
  - set (t := default VNone (parsed !! "title")).
    set (ds := default VNone (parsed !! "description")).
    set (cm := default VNone (parsed !! "component")).
    destruct (Docs.is_component cm) eqn:Hc.
    + destruct (hashable cm); cbn [bind]; [|done].
      destruct cm; cbn [Docs.str_items bind]; try done.
      intros [= <- _ _] ->%list_elem_of_singleton. simpl.
      by rewrite !lookup_insert_ne.
    + cbn [bind]. intros [= <- _ _] ->%list_elem_of_singleton. simpl.
      by rewrite !lookup_insert_ne.
  - cbn [Docs.is_component truthy andb bind].
    intros [= <- _ _] ->%list_elem_of_singleton. simpl.
    by rewrite !lookup_insert_ne.
Qed.

End DocsProofs.

Lemma boolean_component_is_discarded_witness :
  exists doc docs_stats',
    Docs.process_documentation_file demo_frontmatter demo_page empty_registry ∅
    = Ok ([doc], empty_registry, docs_stats')
    /\ page_content doc = demo_page_text
    /\ metadata doc !! "components" = Some (VStr "")
    /\ metadata doc !! "component" = None.
Proof.
  apply (boolean_component_is_discarded demo_frontmatter demo_page empty_registry ∅
           demo_page_text (<["component" := VBool true]> ∅) true);
    reflexivity.
Defined.

(** * Properties of the example-project builder *)

Lemma prefix_append p s : String.prefix p (p +:+ s) = true.
Proof.
  induction p as [|c p IH]; [by destruct s|].
  change (String c p +:+ s) with (String c (p +:+ s)). simpl.
  destruct (ascii_dec c c); [done|done].
Qed.

Lemma contains_prefix p s : String.prefix p s = true -> contains p s = true.
Proof. destruct s; simpl; [done|]. by intros ->. Qed.

Lemma contains_append p a s : contains p s = true -> contains p (a +:+ s) = true.
Proof.
  intros H. induction a as [|c a IH]; [done|].
  change (String c a +:+ s) with (String c (a +:+ s)). simpl.
  rewrite IH. by rewrite orb_true_r.
Qed.

Lemma contains_middle p a b : contains p (a +:+ p +:+ b) = true.
Proof. apply contains_append, contains_prefix, prefix_append. Qed.

Lemma contains_end p a : contains p (a +:+ p) = true.
Proof.
  apply contains_append, contains_prefix.
  induction p as [|c p IH]; [done|]. simpl. by destruct (ascii_dec c c).
Qed.

Section ExamplesProofs.
Variable llm_invoke : string -> string -> string -> res string.
Variable json_loads : string -> res value.
Variable py_str : value -> string.
Variable include_exts : list string.

Lemma both_empty_false a b :
  a <> "" \/ b <> "" -> (String.eqb a "" && String.eqb b "")%bool = false.
Proof.
  intros [H|H]; apply andb_false_iff; [left|right]; by apply String.eqb_neq.
Qed.

Lemma analyze_fails (ex : Examples.ExampleDir) :
  summarization_fails llm_invoke json_loads ex ->
  exists msg,
    Examples.analyze_example_with_llm llm_invoke json_loads ex = Raise (ValueError msg)
    /\ contains (Examples.example_path ex) msg = true.
Proof.
  unfold Examples.analyze_example_with_llm.
  intros [Hr Hp | r pk content Hr Hp Hne Hllm Hstrip | r pk content e Hr Hp Hne Hllm Hstrip Hjson].
  - rewrite Hr, Hp. cbn. eexists. split; [reflexivity|]. apply contains_end.
  - rewrite Hr, Hp. cbn [bind]. rewrite (both_empty_false _ _ Hne), Hllm. cbn [bind].
    rewrite Hstrip. cbn. eexists. split; [reflexivity|]. apply contains_end.
  - rewrite Hr, Hp. cbn [bind]. rewrite (both_empty_false _ _ Hne), Hllm. cbn [bind].
    apply String.eqb_neq in Hstrip. rewrite Hstrip, Hjson. cbn [bind].
    eexists. split; [reflexivity|]. apply (contains_middle _ _ (": " +:+ e)).
Qed.

(** Claim C10.  For an example project directory on which the summarization
    step fails (no README.md and no package.json, an empty response, or a
    response that is not JSON), [process_example_project] raises a
    [ValueError] whose message contains the project's path; it returns no
    list of documents. *)
Theorem summarization_failure_is_fatal (ex : Examples.ExampleDir) :
  Examples.example_exists ex = true ->
  summarization_fails llm_invoke json_loads ex ->
  exists msg,
    Examples.process_example_project llm_invoke json_loads py_str include_exts ex
    = Raise (ValueError msg)
    /\ contains (Examples.example_path ex) msg = true.
Proof.
  intros Hex Hfail. destruct (analyze_fails ex Hfail) as (msg & Hmsg & Hname).
  exists msg. split; [|done].
  unfold Examples.process_example_project. by rewrite Hex, Hmsg.
Qed.

Lemma file_metadata_no_line_keys base example_type f :
  base !! "start_line" = None -> base !! "end_line" = None ->
  Examples.file_metadata py_str base example_type f !! "start_line" = None
  /\ Examples.file_metadata py_str base example_type f !! "end_line" = None.
Proof.
  intros Hs He. unfold Examples.file_metadata.
  repeat match goal with |- context [if ?b then _ else _] => destruct b end;
    by rewrite !lookup_insert_ne.
Qed.

Lemma process_file_no_line_keys base example_type docs f :
  base !! "start_line" = None -> base !! "end_line" = None ->
  Forall (fun doc => metadata doc !! "start_line" = None
                     /\ metadata doc !! "end_line" = None) docs ->
  Forall (fun doc => metadata doc !! "start_line" = None
                     /\ metadata doc !! "end_line" = None)
         (Examples.process_file py_str base example_type docs f).
Proof.
  intros Hs He Hdocs. unfold Examples.process_file.
  destruct (_ && _); [|done]. destruct (Examples.file_read f); [|done].
  destruct (negb _); [|done]. apply Forall_app; split; [done|].
  apply Forall_singleton. by apply file_metadata_no_line_keys.
Qed.

Lemma process_files_no_line_keys base example_type (ex : Examples.ExampleDir)
      (patterns : list string) : forall docs,
  base !! "start_line" = None -> base !! "end_line" = None ->
  Forall (fun doc => metadata doc !! "start_line" = None
                     /\ metadata doc !! "end_line" = None) docs ->
  Forall (fun doc => metadata doc !! "start_line" = None
                     /\ metadata doc !! "end_line" = None)
         (fold_left
            (fun docs pattern =>
               fold_left (Examples.process_file py_str base example_type)
                         (Examples.glob ex pattern) docs)
            patterns docs).
Proof.
  induction patterns as [|pattern patterns IH]; intros docs Hs He Hdocs;
    cbn [fold_left]; [done|].
  apply IH; [done|done|]. revert docs Hdocs.
  induction (Examples.glob ex pattern) as [|f files IHf]; intros docs Hdocs;
    cbn [fold_left]; [done|].
  apply IHf. by apply process_file_no_line_keys.
Qed.

Lemma process_example_project_no_line_keys ex docs doc :
  Examples.process_example_project llm_invoke json_loads py_str include_exts ex = Ok docs ->
  doc ∈ docs ->
  metadata doc !! "start_line" = None /\ metadata doc !! "end_line" = None.
Proof.
  unfold Examples.process_example_project.
  destruct (negb _); [intros [= <-] H; by apply elem_of_nil in H|].
  destruct (Examples.analyze_example_with_llm _ _ _) as [analysis|]; cbn [bind]; [|done].
  destruct (Examples.join_value _ _) as [kf|]; cbn [bind]; [|done].
  intros [= <-] Hdoc. revert doc Hdoc. apply Forall_forall.
  apply (process_files_no_line_keys _ _ ex (Examples.files_to_process include_exts) []);
    [by rewrite !lookup_insert_ne..|by constructor].
Qed.

End ExamplesProofs.

Lemma summarization_failure_is_fatal_witness :
  Examples.example_exists bare_example = true
  /\ exists msg,
       Examples.process_example_project silent_llm strict_json plain_str [".ts"; ".md"]
         bare_example
       = Raise (ValueError msg)
       /\ contains (Examples.example_path bare_example) msg = true.
Proof.
  split; [reflexivity|].
  apply (summarization_failure_is_fatal silent_llm strict_json plain_str [".ts"; ".md"]
           bare_example);
    [reflexivity | apply no_sources; reflexivity].
Defined.
